(** * bioimageit-omero: the OMERO metadata service

    A shallow embedding of [bioimageit_omero/data_omero.py]: the provenance
    document codec ([_write_run], [_parse_run], the origin block of
    [update_processed_data] and [get_processed_data]), the run-document naming
    loop of [create_run], the key-value merge of [get_raw_data], the format
    gate of [import_data] and the service builder.

    Python values are modelled by [pyval], exceptions by [exn], the local
    workspace by a finite map from paths to file contents and the OMERO server
    by the record [omero]. *)

From Stdlib Require Import ZArith String Ascii List.
From stdpp Require Import base option list strings gmap fin_maps pretty.

Local Open Scope string_scope.
Local Open Scope list_scope.
Local Open Scope Z_scope.

(** ** Python values

    The values that [json.dump] writes and [json.load] reads back unchanged:
    [None], booleans, integers, strings, lists and dictionaries with string
    keys.  A dictionary keeps its insertion order.  Floats and tuples, which
    a dump and a load may change, are left out. *)

#[warnings="-register-all"] Inductive pyval : Type :=
| PNone
| PBool (b : bool)
| PInt (z : Z)
| PStr (s : string)
| PList (l : list pyval)
| PDict (d : list (string * pyval)).

(** ** Exceptions *)

Inductive exn : Type :=
| KeyError (key : string)
| TypeError
| AttributeError
| OSError
| JSONDecodeError
| DataServiceError (msg : string).

(** The name of the exception's class. *)
Definition exn_name (e : exn) : string :=
  match e with
  | KeyError _ => "KeyError"
  | TypeError => "TypeError"
  | AttributeError => "AttributeError"
  | OSError => "OSError"
  | JSONDecodeError => "JSONDecodeError"
  | DataServiceError _ => "DataServiceError"
  end.

Inductive result (A : Type) : Type :=
| Ok (a : A)
| Raise (e : exn).
Arguments Ok {A} a.
Arguments Raise {A} e.

Global Instance result_ret : MRet result := λ A a, Ok a.
Global Instance result_bind : MBind result := λ A B f m,
  match m with
  | Ok a => f a
  | Raise e => Raise e
  end.

(** ** Operations of the Python data model *)

(** [d.get(k)] on the association list of a dictionary. *)
Fixpoint dict_get (k : string) (d : list (string * pyval)) : option pyval :=
  match d with
  | [] => None
  | (k', v) :: d' => if String.eqb k k' then Some v else dict_get k d'
  end.

(** [v[k]] for a string key [k]: a dictionary is looked up, every other type
    rejects a string subscript. *)
Definition py_getitem (v : pyval) (k : string) : result pyval :=
  match v with
  | PDict d =>
      match dict_get k d with
      | Some x => Ok x
      | None => Raise (KeyError k)
      end
  | _ => Raise TypeError
  end.

(** The one-character strings a [str] iterates over. *)
Fixpoint str_chars (s : string) : list pyval :=
  match s with
  | EmptyString => []
  | String c r => PStr (String c EmptyString) :: str_chars r
  end.

(** [for x in v]: the elements of a list, the characters of a string, the
    keys of a dictionary; the other types are not iterable. *)
Definition py_iter (v : pyval) : result (list pyval) :=
  match v with
  | PList l => Ok l
  | PStr s => Ok (str_chars s)
  | PDict d => Ok (map (λ kv, PStr (fst kv)) d)
  | _ => Raise TypeError
  end.

Definition is_str (k : string) (v : pyval) : bool :=
  match v with
  | PStr s => String.eqb s k
  | _ => false
  end.

(** [k in v] for a string [k]. *)
Definition py_contains (k : string) (v : pyval) : result bool :=
  match v with
  | PDict d => Ok (match dict_get k d with Some _ => true | None => false end)
  | PList l => Ok (existsb (is_str k) l)
  | PStr s => Ok (match index 0 k s with Some _ => true | None => false end)
  | _ => Raise TypeError
  end.

(** A loop body run over a list, stopping at the first exception. *)
Fixpoint for_each {A B : Type} (f : A → result B) (l : list A) : result (list B) :=
  match l with
  | [] => Ok []
  | x :: l' =>
      y ← f x;
      ys ← for_each f l';
      Ok (y :: ys)
  end.

(** ** The local workspace

    A flat map from paths to regular files; every directory is taken to exist
    and to be writable. *)

Inductive file_content : Type :=
| EmptyFile
| JsonFile (doc : pyval)
| OpaqueFile.

(** ** Containers of [bioimageit_core] *)

Record Container : Type := mkContainer {
  c_md_uri : pyval;
  c_uuid : pyval }.

Record RunInputContainer : Type := mkRunInput {
  ri_name : pyval;
  ri_dataset : pyval;
  ri_query : pyval;
  ri_origin_output_name : pyval }.

Record RunParameterContainer : Type := mkRunParameter {
  rp_name : pyval;
  rp_value : pyval }.

Record Run : Type := mkRun {
  run_md_uri : pyval;
  run_uuid : pyval;
  process_name : pyval;
  process_uri : pyval;
  processed_dataset : option Container;
  inputs : list RunInputContainer;
  parameters : list RunParameterContainer }.

(** [Run()] *)
Definition Run_new : Run :=
  {| run_md_uri := PStr ""; run_uuid := PStr "";
     process_name := PStr ""; process_uri := PStr "";
     processed_dataset := None; inputs := []; parameters := [] |}.

(** ** Reading and writing JSON files *)

(** [_read_json]: [os.path.getsize] fails on a missing file, an empty
    file yields [None], anything else goes through [json.load]. *)
Definition _read_json (files : gmap string file_content) (md_uri : string)
  : result pyval :=
  match files !! md_uri with
  | None => Raise OSError
  | Some EmptyFile => Ok PNone
  | Some (JsonFile doc) => Ok doc
  | Some OpaqueFile => Raise JSONDecodeError
  end.

(** [_write_json]: [open(md_uri, 'w')] needs a path, and not the empty
    one. *)
Definition _write_json (metadata : pyval) (md_uri : pyval)
    (files : gmap string file_content)
  : result (gmap string file_content) :=
  match md_uri with
  | PStr p =>
      if decide (p = "") then Raise OSError
      else Ok (<[p := JsonFile metadata]> files)
  | _ => Raise OSError
  end.

(** ** The run document *)

Definition encode_input (input_ : RunInputContainer) : pyval :=
  PDict [("name", ri_name input_);
         ("dataset", ri_dataset input_);
         ("query", ri_query input_);
         ("origin_output_name", ri_origin_output_name input_)].

Definition encode_parameter (parameter : RunParameterContainer) : pyval :=
  PDict [("name", rp_name parameter); ("value", rp_value parameter)].

(** The dictionary [_write_run] builds before it is dumped. *)
Definition run_metadata (run : Run) : result pyval :=
  match processed_dataset run with
  | None => Raise AttributeError
  | Some ds =>
      Ok (PDict [("uuid", run_uuid run);
                 ("process", PDict [("name", process_name run);
                                    ("url", process_uri run)]);
                 ("processed_dataset", PDict [("uuid", c_uuid ds);
                                              ("url", c_md_uri ds)]);
                 ("inputs", PList (map encode_input (inputs run)));
                 ("parameters", PList (map encode_parameter (parameters run)))])
  end.

Definition _write_run (run : Run) (files : gmap string file_content)
  : result (gmap string file_content) :=
  metadata ← run_metadata run;
  _write_json metadata (run_md_uri run) files.

Definition decode_input (input_ : pyval) : result RunInputContainer :=
  n ← py_getitem input_ "name";
  d ← py_getitem input_ "dataset";
  q ← py_getitem input_ "query";
  o ← py_getitem input_ "origin_output_name";
  Ok (mkRunInput n d q o).

Definition decode_parameter (parameter : pyval) : result RunParameterContainer :=
  n ← py_getitem parameter "name";
  v ← py_getitem parameter "value";
  Ok (mkRunParameter n v).

(** The body of [_parse_run] once the document is loaded. *)
Definition run_of_metadata (md_uri : string) (metadata : pyval) : result Run :=
  uuid ← py_getitem metadata "uuid";
  process ← py_getitem metadata "process";
  pname ← py_getitem process "name";
  process' ← py_getitem metadata "process";
  purl ← py_getitem process' "url";
  pd ← py_getitem metadata "processed_dataset";
  pd_url ← py_getitem pd "url";
  pd' ← py_getitem metadata "processed_dataset";
  pd_uuid ← py_getitem pd' "uuid";
  ins ← py_getitem metadata "inputs";
  ins_items ← py_iter ins;
  inputs ← for_each decode_input ins_items;
  ps ← py_getitem metadata "parameters";
  ps_items ← py_iter ps;
  parameters ← for_each decode_parameter ps_items;
  Ok {| run_md_uri := PStr md_uri; run_uuid := uuid;
        process_name := pname; process_uri := purl;
        processed_dataset := Some (mkContainer pd_url pd_uuid);
        inputs := inputs; parameters := parameters |}.

Definition _parse_run (files : gmap string file_content) (md_uri : string)
  : result Run :=
  metadata ← _read_json files md_uri;
  run_of_metadata md_uri metadata.

(** ** More containers of [bioimageit_core] *)

Record DatasetInfo : Type := mkDatasetInfo {
  di_name : string;
  di_url : pyval;
  di_uuid : pyval }.

Record Experiment : Type := mkExperiment {
  exp_md_uri : pyval;
  exp_uuid : pyval;
  exp_name : string;
  exp_author : string;
  exp_date : string;
  raw_dataset : option DatasetInfo;
  processed_datasets : list DatasetInfo;
  keys : list string }.

Record Dataset : Type := mkDataset {
  ds_md_uri : pyval;
  ds_uuid : pyval;
  ds_name : string;
  ds_uris : list Container }.

Record RawData : Type := mkRawData {
  rd_md_uri : pyval;
  rd_uuid : pyval;
  rd_uri : pyval;
  rd_type : string;
  rd_name : string;
  rd_author : string;
  rd_format : string;
  rd_date : string;
  key_value_pairs : gmap string string }.

(** [RawData()] *)
Definition RawData_new : RawData :=
  {| rd_md_uri := PStr ""; rd_uuid := PStr ""; rd_uri := PStr "";
     rd_type := "raw"; rd_name := ""; rd_author := ""; rd_format := "";
     rd_date := ""; key_value_pairs := ∅ |}.

Record ProcessedDataInputContainer : Type := mkProcessedDataInput {
  pi_name : pyval;
  pi_uri : pyval;
  pi_uuid : pyval;
  pi_type : pyval }.

Record ProcessedData : Type := mkProcessedData {
  pd_md_uri : pyval;
  pd_uuid : pyval;
  pd_uri : pyval;
  pd_name : string;
  pd_author : string;
  pd_format : string;
  pd_date : string;
  pd_run : option Container;
  pd_inputs : list ProcessedDataInputContainer;
  pd_output : gmap string pyval }.

(** [ProcessedData()]: no run yet, no inputs, an empty [output] dictionary. *)
Definition ProcessedData_new : ProcessedData :=
  {| pd_md_uri := PStr ""; pd_uuid := PStr ""; pd_uri := PStr "";
     pd_name := ""; pd_author := ""; pd_format := ""; pd_date := "";
     pd_run := None; pd_inputs := []; pd_output := ∅ |}.

(** Modelled from the spec: the constant [METADATA_TYPE_PROCESSED] is
    imported from [bioimageit_core]; the origin document carries
    ["processed"] as its type. *)
Definition METADATA_TYPE_PROCESSED : string := "processed".

(** ** Paths and names *)

Fixpoint ends_with (suffix s : string) : bool :=
  String.eqb suffix s ||
  match s with
  | EmptyString => false
  | String _ r => ends_with suffix r
  end.

Fixpoint has_slash (s : string) : bool :=
  match s with
  | EmptyString => false
  | String c r => Ascii.eqb c "/" || has_slash r
  end.

(** [os.path.join] of two components. *)
Definition path_join (a b : string) : string :=
  match b with
  | String "/" _ => b
  | _ => if String.eqb a "" || ends_with "/" a then a +:+ b
         else a +:+ "/" +:+ b
  end.

Global Arguments path_join : simpl never.

(** [os.path.basename]: what follows the last slash. *)
Fixpoint basename (p : string) : string :=
  match p with
  | EmptyString => EmptyString
  | String c r => if has_slash p then basename r else p
  end.

(** ** The OMERO server

    Projects, datasets and images with their names, owners, creation times,
    parents and linked annotations, the identifier the server gives to the
    next object, and the journal of the requests it has received. *)

Inductive annotation : Type :=
| TagAnnotation (value : string)
| MapAnnotation (value : list (string * string))
| FileAnnotation (name : string) (content : file_content).

Inductive omero_type : Type := ProjectI | DatasetI | ImageI.

Record omero_object : Type := mkObject {
  o_name : string;
  o_owner : string;
  o_time : Z;
  o_parent : option Z;
  o_annotations : list (Z * annotation) }.

Inductive remote_call : Type :=
| CreateSession
| ImportFileset (path : string)
| GetObject (t : omero_type) (oid : pyval)
| GetParent (t : omero_type) (oid : Z)
| ListAnnotations (t : omero_type) (oid : Z)
| SaveObject (t : omero_type) (oid : Z)
| SaveLink (parent : pyval) (child : Z)
| SaveAnnotation (aid : Z)
| CreateFileAnnotation (aid : Z)
| LinkAnnotation (t : omero_type) (oid : Z) (aid : Z)
| DeleteObjects (ids : list Z).

Record omero : Type := mkOmero {
  projects : gmap Z omero_object;
  datasets : gmap Z omero_object;
  images : gmap Z omero_object;
  next_id : Z;
  session_user : string;
  clock : Z;
  calls : list remote_call }.

Definition objects (t : omero_type) (s : omero) : gmap Z omero_object :=
  match t with
  | ProjectI => projects s
  | DatasetI => datasets s
  | ImageI => images s
  end.

Definition set_objects (t : omero_type) (m : gmap Z omero_object) (s : omero)
  : omero :=
  match t with
  | ProjectI =>
      mkOmero m (datasets s) (images s) (next_id s) (session_user s)
        (clock s) (calls s)
  | DatasetI =>
      mkOmero (projects s) m (images s) (next_id s) (session_user s)
        (clock s) (calls s)
  | ImageI =>
      mkOmero (projects s) (datasets s) m (next_id s) (session_user s)
        (clock s) (calls s)
  end.

Definition set_next_id (n : Z) (s : omero) : omero :=
  mkOmero (projects s) (datasets s) (images s) n (session_user s) (clock s)
    (calls s).

Definition journal (c : remote_call) (s : omero) : omero :=
  mkOmero (projects s) (datasets s) (images s) (next_id s) (session_user s)
    (clock s) (calls s ++ [c]).

(** ** Computations of the service: the workspace and the server as state,
    exceptions as results.  The state reached when an exception is raised is
    kept. *)

Record world : Type := mkWorld {
  files : gmap string file_content;
  server : omero }.

Definition M (A : Type) : Type := world → result A * world.

Global Instance M_ret : MRet M := λ A a w, (Ok a, w).
Global Instance M_bind : MBind M := λ A B f m w,
  match m w with
  | (Ok a, w') => f a w'
  | (Raise e, w') => (Raise e, w')
  end.

Definition throw {A : Type} (e : exn) : M A := λ w, (Raise e, w).

Definition lift {A : Type} (r : result A) : M A := λ w, (r, w).

Definition with_files {A : Type} (f : gmap string file_content → result A)
  : M A :=
  λ w, (f (files w), w).

Definition update_files
    (f : gmap string file_content → result (gmap string file_content))
  : M unit :=
  λ w, match f (files w) with
       | Ok fs => (Ok tt, mkWorld fs (server w))
       | Raise e => (Raise e, w)
       end.

(** [if os.path.exists(p): os.remove(p)] *)
Definition remove_if_exists (p : string) : M unit :=
  λ w, (Ok tt, mkWorld (delete p (files w)) (server w)).

Definition request (c : remote_call) : M unit :=
  λ w, (Ok tt, mkWorld (files w) (journal c (server w))).

Definition update_server (f : omero → omero) : M unit :=
  λ w, (Ok tt, mkWorld (files w) (f (server w))).

Definition read_server {A : Type} (f : omero → A) : M A :=
  λ w, (Ok (f (server w)), w).

(** *** Requests of the gateway *)

Definition as_id (v : pyval) : option Z :=
  match v with
  | PInt z => Some z
  | _ => None
  end.

(** [conn.getObject(t, oid)]: the object and its identifier, or [None]. *)
Definition getObject (t : omero_type) (oid : pyval)
  : M (option (Z * omero_object)) :=
  request (GetObject t oid);;
  read_server (λ s, i ← as_id oid; o ← objects t s !! i; Some (i, o)).

(** [obj.getParent()]: the identifier of the parent, if any. *)
Definition getParent (t : omero_type) (oid : Z) : M (option Z) :=
  request (GetParent t oid);;
  read_server (λ s, o ← objects t s !! oid; o_parent o).

(** [obj.listAnnotations()] *)
Definition listAnnotations (t : omero_type) (oid : Z)
  : M (list (Z * annotation)) :=
  request (ListAnnotations t oid);;
  read_server (λ s, match objects t s !! oid with
                    | Some o => o_annotations o
                    | None => []
                    end).

Definition rename (name : string) (o : omero_object) : omero_object :=
  mkObject name (o_owner o) (o_time o) (o_parent o) (o_annotations o).

(** [obj.name = name; obj.save()]; the [date] attribute that
    [update_processed_data] also sets is no field the server stores. *)
Definition save_name (t : omero_type) (oid : Z) (name : string) : M unit :=
  request (SaveObject t oid);;
  update_server (λ s, set_objects t (alter (rename name) oid (objects t s)) s).

Definition add_annotation (a : Z * annotation) (o : omero_object)
  : omero_object :=
  mkObject (o_name o) (o_owner o) (o_time o) (o_parent o)
    (o_annotations o ++ [a]).

(** [obj.linkAnnotation(ann)] *)
Definition linkAnnotation (t : omero_type) (oid : Z) (a : Z * annotation)
  : M unit :=
  request (LinkAnnotation t oid (fst a));;
  update_server (λ s,
    set_objects t (alter (add_annotation a) oid (objects t s)) s).

Definition drop_annotations (ids : list Z) (o : omero_object) : omero_object :=
  mkObject (o_name o) (o_owner o) (o_time o) (o_parent o)
    (filter (λ a, fst a ∉ ids) (o_annotations o)).

(** [conn.deleteObjects('Annotation', ids, wait=True)]: the annotations are
    gone from every object they were linked to. *)
Definition deleteObjects (ids : list Z) : M unit :=
  request (DeleteObjects ids);;
  update_server (λ s,
    mkOmero (drop_annotations ids <$> projects s)
            (drop_annotations ids <$> datasets s)
            (drop_annotations ids <$> images s)
            (next_id s) (session_user s) (clock s) (calls s)).

(** The server hands out a fresh identifier. *)
Definition fresh_id : M Z :=
  λ w, (Ok (next_id (server w)),
        mkWorld (files w) (set_next_id (next_id (server w) + 1) (server w))).

(** [conn.createFileAnnfromLocalFile(path, ...)]: the local file is uploaded
    under its base name and wrapped in a new file annotation. *)
Definition createFileAnnfromLocalFile (path : string) : M (Z * annotation) :=
  content ← with_files (λ fs, match fs !! path with
                              | Some c => Ok c
                              | None => Raise OSError
                              end);
  aid ← fresh_id;
  request (CreateFileAnnotation aid);;
  mret (aid, FileAnnotation (basename path) content).

(** [MapAnnotationWrapper(conn)], [setValue], [save] *)
Definition create_map_annotation (value : list (string * string))
  : M (Z * annotation) :=
  aid ← fresh_id;
  request (SaveAnnotation aid);;
  mret (aid, MapAnnotation value).

(** ** The metadata service *)

Section OmeroMetadataService.

(** [ConfigAccess.instance().config['workspace']] *)
Variable workspace : string.

(** [datetime.fromtimestamp(t / 1000).strftime('%Y-%m-%d')] *)
Variable format_date : Z → string.

(** *** Importing raw data *)

Definition new_image (name : string) (s : omero) : omero_object :=
  mkObject name (session_user s) (clock s) None [].

(** [main_import]: a session of its own, the upload of the file and the
    identifier of the image the server made of it. *)
Definition main_import (data_path : string) : M Z :=
  request CreateSession;;
  with_files (λ fs, match fs !! data_path with
                    | Some _ => Ok tt
                    | None => Raise OSError
                    end);;
  request (ImportFileset data_path);;
  image_id ← fresh_id;
  update_server (λ s,
    set_objects ImageI
      (<[image_id := new_image (basename data_path) s]> (images s)) s);;
  mret image_id.

Definition set_parent (parent : Z) (o : omero_object) : omero_object :=
  mkObject (o_name o) (o_owner o) (o_time o) (Some parent) (o_annotations o).

(** The [DatasetImageLinkI] saved through the update service; the model
    objects [DatasetI(id, False)] and [ImageI(id, False)] take integer
    identifiers. *)
Definition save_link (raw_dataset_id : pyval) (image_id : Z) : M unit :=
  match as_id raw_dataset_id with
  | None => throw TypeError
  | Some d =>
      request (SaveLink raw_dataset_id image_id);;
      update_server (λ s,
        set_objects ImageI (alter (set_parent d) image_id (images s)) s)
  end.

Definition import_data (experiment : Experiment)
    (data_path name author format_ date : string)
    (key_value_pairs : gmap string string) : M RawData :=
  raw_dataset_id ← lift (match raw_dataset experiment with
                         | Some info => Ok (di_url info)
                         | None => Raise AttributeError
                         end);
  dataset ← getObject DatasetI raw_dataset_id;
  image_id ←
    (if String.eqb format_ "imagetiff" then
       image_id ← main_import data_path;
       save_link raw_dataset_id image_id;;
       mret image_id
     else
       throw (DataServiceError
                ("OMERO service can only import tiff images (format="
                   +:+ format_ +:+ ")")));
  (let keys_value_list := map_to_list key_value_pairs in
   match keys_value_list with
   | [] => mret tt
   | _ :: _ =>
       map_ann ← create_map_annotation keys_value_list;
       image ← getObject ImageI (PInt image_id);
       match image with
       | Some (iid, _) => linkAnnotation ImageI iid map_ann
       | None => throw AttributeError
       end
   end);;
  mret {| rd_md_uri := PInt image_id; rd_uuid := PInt image_id;
          rd_uri := rd_uri RawData_new; rd_type := rd_type RawData_new;
          rd_name := name; rd_author := author; rd_format := format_;
          rd_date := date; key_value_pairs := key_value_pairs |}.

(** *** Reading raw data *)

(** The first loop of [get_raw_data]: the pairs of every map annotation. *)
Definition add_pairs (kv : gmap string string) (ann : Z * annotation)
  : gmap string string :=
  match snd ann with
  | MapAnnotation values =>
      foldl (λ m value, <[fst value := snd value]> m) kv values
  | _ => kv
  end.

(** The second loop: a tag of the experiment, unless the key is there. *)
Definition add_tag (kv : gmap string string) (ann : Z * annotation)
  : gmap string string :=
  match snd ann with
  | TagAnnotation value =>
      match kv !! value with
      | None => <[value := ""]> kv
      | Some _ => kv
      end
  | _ => kv
  end.

Definition get_raw_data (md_uri : pyval) : M RawData :=
  image ← getObject ImageI md_uri;
  match image with
  | None => throw AttributeError
  | Some (iid, img) =>
      anns ← listAnnotations ImageI iid;
      let kv := foldl add_pairs (key_value_pairs RawData_new) anns in
      dataset ← getParent ImageI iid;
      match dataset with
      | None => throw AttributeError
      | Some did =>
          parent ← getParent DatasetI did;
          match parent with
          | None => throw AttributeError
          | Some pid =>
              project ← getObject ProjectI (PInt pid);
              match project with
              | None => throw AttributeError
              | Some (pid', _) =>
                  tags ← listAnnotations ProjectI pid';
                  mret {| rd_md_uri := md_uri; rd_uuid := md_uri;
                          rd_uri := md_uri; rd_type := "raw";
                          rd_name := o_name img; rd_author := o_owner img;
                          rd_format := "imagetiff";
                          rd_date := format_date (o_time img);
                          key_value_pairs := foldl add_tag kv tags |}
              end
          end
      end
  end.

(** *** Processed data and its origin document *)

Definition download_attachment (destination_path : string)
    (found : bool) (ann : Z * annotation) : M bool :=
  match snd ann with
  | FileAnnotation name content =>
      if ends_with ".md.json" name then
        update_files (λ fs,
          Ok (<[path_join destination_path name := content]> fs));;
        mret true
      else mret found
  | _ => mret found
  end.

Fixpoint download_attachments (destination_path : string) (found : bool)
    (anns : list (Z * annotation)) : M bool :=
  match anns with
  | [] => mret found
  | ann :: anns' =>
      found' ← download_attachment destination_path found ann;
      download_attachments destination_path found' anns'
  end.

Definition _omero_download_image_md_attachments (image : Z)
    (destination_path : string) : M unit :=
  anns ← listAnnotations ImageI image;
  md_found ← download_attachments destination_path false anns;
  if (md_found : bool) then mret tt
  else throw (DataServiceError "Cannot found the metadata file for image:").

(** Chained subscripts [v[k1][k2]...]. *)
Fixpoint py_path (v : pyval) (ks : list string) : result pyval :=
  match ks with
  | [] => Ok v
  | k :: ks' => x ← py_getitem v k; py_path x ks'
  end.

Definition decode_origin_input (input_ : pyval)
  : result ProcessedDataInputContainer :=
  n ← py_getitem input_ "name";
  u ← py_getitem input_ "url";
  i ← py_getitem input_ "uuid";
  t ← py_getitem input_ "type";
  Ok (mkProcessedDataInput n u i t).

(** [if key in metadata['origin']['output']: container.output[key] = ...] *)
Definition decode_output_key (metadata : pyval) (key : string)
    (output : gmap string pyval) : result (gmap string pyval) :=
  out ← py_path metadata ["origin"; "output"];
  present ← py_contains key out;
  if (present : bool) then
    v ← py_path metadata ["origin"; "output"; key];
    Ok (<[key := v]> output)
  else Ok output.

(** The fields [get_processed_data] reads from the origin document. *)
Definition origin_of_metadata (metadata : pyval)
  : result (Container * list ProcessedDataInputContainer * gmap string pyval) :=
  url ← py_path metadata ["origin"; "run"; "url"];
  uuid ← py_path metadata ["origin"; "run"; "uuid"];
  ins ← py_path metadata ["origin"; "inputs"];
  items ← py_iter ins;
  inputs ← for_each decode_origin_input items;
  output ← decode_output_key metadata "name" (pd_output ProcessedData_new);
  output' ← decode_output_key metadata "label" output;
  Ok (mkContainer url uuid, inputs, output').

Definition get_processed_data (md_uri : pyval) : M (option ProcessedData) :=
  image ← getObject ImageI md_uri;
  match image with
  | None => mret None
  | Some (iid, img) =>
      let md_json_file := path_join workspace "processed_data.md.json" in
      _omero_download_image_md_attachments iid workspace;;
      metadata ← with_files (λ fs, _read_json fs md_json_file);
      origin ← lift (origin_of_metadata metadata);
      remove_if_exists md_json_file;;
      mret (Some {| pd_md_uri := PInt iid; pd_uuid := PInt iid;
                    pd_uri := PInt iid; pd_name := o_name img;
                    pd_author := o_owner img; pd_format := "imagetiff";
                    pd_date := format_date (o_time img);
                    pd_run := Some (fst (fst origin));
                    pd_inputs := snd (fst origin);
                    pd_output := snd origin |})
  end.

Definition encode_origin_input (input_ : ProcessedDataInputContainer)
  : pyval :=
  PDict [("name", pi_name input_); ("url", pi_uri input_);
         ("uuid", pi_uuid input_); ("type", pi_type input_)].

(** [processed_data.output[key]] *)
Definition output_item (output : gmap string pyval) (key : string)
  : result pyval :=
  match output !! key with
  | Some v => Ok v
  | None => Raise (KeyError key)
  end.

(** The dictionary [update_processed_data] builds before it is dumped. *)
Definition origin_metadata (processed_data : ProcessedData) : result pyval :=
  run ← match pd_run processed_data with
        | Some run => Ok run
        | None => Raise AttributeError
        end;
  name ← output_item (pd_output processed_data) "name";
  label ← output_item (pd_output processed_data) "label";
  Ok (PDict
        [("origin",
          PDict [("type", PStr METADATA_TYPE_PROCESSED);
                 ("run", PDict [("url", c_md_uri run); ("uuid", c_uuid run)]);
                 ("inputs",
                  PList (map encode_origin_input (pd_inputs processed_data)));
                 ("output", PDict [("name", name); ("label", label)])])]).

Definition is_origin_attachment (ann : Z * annotation) : bool :=
  match snd ann with
  | FileAnnotation name _ => String.eqb name "processed_data.md.json"
  | _ => false
  end.

Definition update_processed_data (processed_data : ProcessedData) : M unit :=
  image ← getObject ImageI (pd_md_uri processed_data);
  match image with
  | None => throw AttributeError
  | Some (iid, _) =>
      save_name ImageI iid (pd_name processed_data);;
      metadata ← lift (origin_metadata processed_data);
      let md_json_file := path_join workspace "processed_data.md.json" in
      update_files (_write_json metadata (PStr md_json_file));;
      anns ← listAnnotations ImageI iid;
      let to_delete := map fst (filter (λ a, is_origin_attachment a = true) anns) in
      match to_delete with
      | [] => mret tt
      | _ :: _ => deleteObjects to_delete
      end;;
      file_ann ← createFileAnnfromLocalFile md_json_file;
      linkAnnotation ImageI iid file_ann;;
      remove_if_exists md_json_file
  end.

(** *** Runs *)

Definition file_annotation_names (anns : list (Z * annotation))
  : list string :=
  omap (λ ann, match snd ann with
               | FileAnnotation name _ => Some name
               | _ => None
               end) anns.

(** The [while] loop of [create_run]; [fuel] bounds its iterations. *)
Fixpoint free_run_name (fuel : nat) (ann_files : list string)
    (run_md_file_name : string) (run_id_count : nat) : string :=
  match fuel with
  | O => run_md_file_name
  | S fuel' =>
      if bool_decide (run_md_file_name ∈ ann_files) then
        let run_id_count := S run_id_count in
        free_run_name fuel' ann_files
          ("run_" +:+ pretty run_id_count +:+ ".md.json") run_id_count
      else run_md_file_name
  end.

(** The loop started as [create_run] starts it.  One round more than there
    are names is enough for it to leave by its test. *)
Definition run_md_file_name (ann_files : list string) : string :=
  free_run_name (S (length ann_files)) ann_files "run.md.json" 0.

Definition container_of_dataset (dataset : Dataset) : Container :=
  mkContainer (ds_md_uri dataset) (ds_uuid dataset).

(** [create_run] up to and including the writing of the run document:
    the path of the local file and [run_info] as it stands then. *)
Definition create_run_prepare (dataset : Dataset) (run_info : Run)
  : M (Z * string * Run) :=
  omero_dataset ← getObject DatasetI (ds_md_uri dataset);
  match omero_dataset with
  | None => throw AttributeError
  | Some (did, _) =>
      anns ← listAnnotations DatasetI did;
      let ann_files := file_annotation_names anns in
      let file_path := path_join workspace (run_md_file_name ann_files) in
      let run_info :=
        {| run_md_uri := PStr file_path; run_uuid := PStr "";
           process_name := process_name run_info;
           process_uri := process_uri run_info;
           processed_dataset := Some (container_of_dataset dataset);
           inputs := inputs run_info;
           parameters := parameters run_info |} in
      update_files (_write_run run_info);;
      mret (did, file_path, run_info)
  end.

(** The rest of [create_run]: the upload, the link to the dataset and the
    identity given to [run_info]. *)
Definition create_run_attach (did : Z) (file_path : string) (run_info : Run)
  : M Run :=
  file_ann ← createFileAnnfromLocalFile file_path;
  linkAnnotation DatasetI did file_ann;;
  let run_info :=
    {| run_md_uri := PInt (fst file_ann); run_uuid := PInt (fst file_ann);
       process_name := process_name run_info;
       process_uri := process_uri run_info;
       processed_dataset := processed_dataset run_info;
       inputs := inputs run_info;
       parameters := parameters run_info |} in
  remove_if_exists file_path;;
  mret run_info.

Definition create_run (dataset : Dataset) (run_info : Run) : M Run :=
  prepared ← create_run_prepare dataset run_info;
  create_run_attach (fst (fst prepared)) (snd (fst prepared)) (snd prepared).

End OmeroMetadataService.

(** ** The service builder

    Service objects live in a heap and are known by their address; the
    builder holds a reference or [None]. *)

Record OmeroMetadataService : Type := mkService {
  service_name : string;
  _host : string;
  _port : Z;
  _username : string;
  _password : string }.

Record python_state : Type := mkState {
  heap : gmap nat OmeroMetadataService;
  next_address : nat;
  _instance : option nat }.

Section Builder.

(** Whether [BlitzGateway.connect] succeeds with these credentials. *)
Variable connect : string → Z → string → string → bool.

(** [OmeroMetadataService(host, port, username, password)]: the new object
    or the exception of [_omero_connect]. *)
Definition OmeroMetadataService_init (host : string) (port : Z)
    (username password : string) (st : python_state)
  : result nat * python_state :=
  if connect host port username password then
    let self := next_address st in
    (Ok self,
     mkState (<[self := mkService "OmeroMetadataService" host port
                          username password]> (heap st))
             (S self) (_instance st))
  else
    (Raise (DataServiceError "Unable to connect to the Omero database"), st).

(** [OmeroMetadataServiceBuilder.__call__]; a service object has neither
    [__bool__] nor [__len__], so [not self._instance] holds for [None]
    only. *)
Definition __call__ (host : string) (port : Z) (username password : string)
    (st : python_state) : result nat * python_state :=
  match _instance st with
  | Some self => (Ok self, st)
  | None =>
      match OmeroMetadataService_init host port username password st with
      | (Ok self, st') =>
          (Ok self, mkState (heap st') (next_address st') (Some self))
      | (Raise e, st') => (Raise e, st')
      end
  end.

End Builder.

(** ** Shapes of run documents *)

Definition has_path (v : pyval) (ks : list string) : bool :=
  match py_path v ks with
  | Ok _ => true
  | Raise _ => false
  end.

(** The five keys a run document has to carry. *)
Definition required_keys : list (list string) :=
  [["uuid"]; ["process"; "name"]; ["process"; "url"];
   ["processed_dataset"; "uuid"]; ["processed_dataset"; "url"]].

Definition misses_required_key (doc : pyval) : bool :=
  existsb (λ ks, negb (has_path doc ks)) required_keys.

Definition has_key (d : list (string * pyval)) (k : string) : bool :=
  match dict_get k d with
  | Some _ => true
  | None => false
  end.

Definition object_with_keys (ks : list string) (v : pyval) : bool :=
  match v with
  | PDict d => forallb (has_key d) ks
  | _ => false
  end.

Definition list_of_objects (ks : list string) (v : pyval) : bool :=
  match v with
  | PList l => forallb (object_with_keys ks) l
  | _ => false
  end.

Definition input_keys : list string :=
  ["name"; "dataset"; "query"; "origin_output_name"].

Definition parameter_keys : list string := ["name"; "value"].

(** A string or a dictionary over which a [for] loop runs no round. *)
Definition iterates_empty (v : pyval) : bool :=
  match v with
  | PStr EmptyString => true
  | PDict [] => true
  | _ => false
  end.

(** A document that lacks one of the five keys, or whose [inputs] or
    [parameters] entry is neither a list of objects with their keys nor
    empty to iterate. *)
Definition malformed_run_document (doc : pyval) : Prop :=
  misses_required_key doc = true
  ∨ (∃ v, py_getitem doc "inputs" = Ok v
          ∧ list_of_objects input_keys v = false ∧ iterates_empty v = false)
  ∨ (∃ v, py_getitem doc "parameters" = Ok v
          ∧ list_of_objects parameter_keys v = false
          ∧ iterates_empty v = false).

Definition lookup_error (e : exn) : Prop :=
  exn_name e = "KeyError" ∨ exn_name e = "TypeError".

(** The encoded parameters of a run all carry a string as their value. *)
Definition values_serialized_as_text (run : Run) : Prop :=
  ∀ doc ps p,
    run_metadata run = Ok doc →
    py_getitem doc "parameters" = Ok (PList ps) →
    p ∈ ps →
    ∃ s, py_getitem p "value" = Ok (PStr s).

(** ** Sample data *)

Definition sample_dataset_ref : Container := mkContainer (PInt 12) (PInt 12).

Definition sample_run : Run :=
  {| run_md_uri := PStr "/workspace/run.md.json";
     run_uuid := PStr "";
     process_name := PStr "gaussian2d";
     process_uri := PStr "/toolboxes/gaussian2d.xml";
     processed_dataset := Some sample_dataset_ref;
     inputs := [mkRunInput (PStr "i") (PStr "data") (PStr "name=.*")
                  (PStr "")];
     parameters := [mkRunParameter (PStr "sigma") (PStr "2");
                    mkRunParameter (PStr "threshold") (PInt 3)] |}.

Definition uuid_only_document : pyval := PDict [("uuid", PStr "x")].

Definition uuid_only_files : gmap string file_content :=
  {[ "/workspace/run.md.json" := JsonFile uuid_only_document ]}.

Definition text_inputs_document : pyval :=
  PDict [("uuid", PStr "x");
         ("process", PDict [("name", PStr "p"); ("url", PStr "u")]);
         ("processed_dataset", PDict [("uuid", PInt 1); ("url", PInt 1)]);
         ("inputs", PStr "");
         ("parameters", PDict [])].

(** ** The sequence of run-document names

    [run.md.json], [run_1.md.json], [run_2.md.json], ... *)
Definition run_name_sequence (n : nat) : string :=
  match n with
  | O => "run.md.json"
  | S _ => "run_" +:+ pretty n +:+ ".md.json"
  end.

(** ** Item-level pairs and experiment tags *)

(** The pairs of the map annotations of an image, in their order. *)
Definition item_level_pairs (anns : list (Z * annotation))
  : list (string * string) :=
  flat_map (λ ann, match snd ann with
                   | MapAnnotation values => values
                   | _ => []
                   end) anns.

(** The values of the tag annotations of a project. *)
Definition experiment_tags (anns : list (Z * annotation)) : list string :=
  omap (λ ann, match snd ann with
               | TagAnnotation value => Some value
               | _ => None
               end) anns.

(** The value of the last pair that has the key [k]. *)
Fixpoint last_value (k : string) (l : list (string * string)) : option string :=
  match l with
  | [] => None
  | (k', v) :: l' =>
      match last_value k l' with
      | Some v' => Some v'
      | None => if decide (k' = k) then Some v else None
      end
  end.

(** An image with the pair stain, DAPI in an experiment tagged stain and
    batch. *)
Definition stained_server : omero :=
  {| projects := {[ 1 := mkObject "experiment" "alice" 0 None
                           [(10, TagAnnotation "stain");
                            (11, TagAnnotation "batch")] ]};
     datasets := {[ 2 := mkObject "data" "alice" 0 (Some 1) [] ]};
     images := {[ 3 := mkObject "cells.tif" "alice" 86400000 (Some 2)
                         [(12, MapAnnotation [("stain", "DAPI")])] ]};
     next_id := 13; session_user := "alice"; clock := 86400000;
     calls := [] |}.

Definition stained_world : world := mkWorld ∅ stained_server.

(** What [get_raw_data] returns for the image of [stained_server]. *)
Definition stained_raw_data : RawData :=
  {| rd_md_uri := PInt 3; rd_uuid := PInt 3; rd_uri := PInt 3;
     rd_type := "raw"; rd_name := "cells.tif"; rd_author := "alice";
     rd_format := "imagetiff"; rd_date := "1970-01-02";
     key_value_pairs := {[ "stain" := "DAPI"; "batch" := "" ]} |}.

(** ** Sample calls *)

Definition sample_experiment : Experiment :=
  {| exp_md_uri := PInt 1; exp_uuid := PInt 1; exp_name := "experiment";
     exp_author := "alice"; exp_date := "2021-01-01";
     raw_dataset := Some (mkDatasetInfo "data" (PInt 2) (PInt 2));
     processed_datasets := []; keys := ["stain"; "batch"] |}.

(** [import_data] asked for a format other than [imagetiff] raises an
    [UnsupportedFormatError] and leaves the journal of the server as it
    was. *)
Definition rejects_without_contact (experiment : Experiment)
    (data_path name author format_ date : string)
    (key_value_pairs : gmap string string) (w : world) : Prop :=
  ∃ e w',
    import_data experiment data_path name author format_ date key_value_pairs w
    = (Raise e, w')
    ∧ exn_name e = "UnsupportedFormatError"
    ∧ calls (server w') = calls (server w).

(** A processed image with a stale origin attachment, and processed data
    whose output has a name but no label. *)
Definition origin_server : omero :=
  {| projects := {[ 1 := mkObject "experiment" "alice" 0 None [] ]};
     datasets := {[ 2 := mkObject "process" "alice" 0 (Some 1) [] ]};
     images := {[ 3 := mkObject "o.tif" "alice" 0 (Some 2)
                         [(20, FileAnnotation "processed_data.md.json"
                                 (JsonFile (PDict [])));
                          (21, TagAnnotation "blurred");
                          (22, FileAnnotation "processed_data.md.json"
                                 EmptyFile)] ]};
     next_id := 23; session_user := "alice"; clock := 0; calls := [] |}.

Definition origin_world : world := mkWorld ∅ origin_server.

Definition labelled_data : ProcessedData :=
  {| pd_md_uri := PInt 3; pd_uuid := PInt 3; pd_uri := PInt 3;
     pd_name := "o.tif"; pd_author := "alice"; pd_format := "imagetiff";
     pd_date := "2021-01-01";
     pd_run := Some (mkContainer (PInt 30) (PInt 30));
     pd_inputs := [mkProcessedDataInput (PStr "i") (PInt 4) (PInt 4)
                     (PStr "raw")];
     pd_output := {[ "name" := PStr "o"; "label" := PStr "Blurred" ]} |}.

Definition unlabelled_data : ProcessedData :=
  {| pd_md_uri := PInt 3; pd_uuid := PInt 3; pd_uri := PInt 3;
     pd_name := "o.tif"; pd_author := "alice"; pd_format := "imagetiff";
     pd_date := "2021-01-01";
     pd_run := Some (mkContainer (PInt 30) (PInt 30));
     pd_inputs := [mkProcessedDataInput (PStr "i") (PInt 4) (PInt 4)
                     (PStr "raw")];
     pd_output := {[ "name" := PStr "o" ]} |}.

(** An origin document whose output has a name and no label. *)
Definition unlabelled_origin : pyval :=
  PDict [("origin",
          PDict [("type", PStr "processed");
                 ("run", PDict [("url", PInt 30); ("uuid", PInt 30)]);
                 ("inputs", PList []);
                 ("output", PDict [("name", PStr "o")])])].

(** ** Calls of the builder in sequence *)

Section BuilderCalls.

Variable connect : string → Z → string → string → bool.

(** The builder called once for each tuple of arguments, in order: what
    each call returned, and the state after the last one. *)
Fixpoint call_all (args : list (string * Z * string * string))
    (st : python_state) : list (result nat) * python_state :=
  match args with
  | [] => ([], st)
  | (host, port, username, password) :: args' =>
      let (r, st1) := __call__ connect host port username password st in
      let (rs, st2) := call_all args' st1 in
      (r :: rs, st2)
  end.

End BuilderCalls.

Definition fresh_python : python_state := mkState ∅ 0 None.

(** A dataset that already holds two run documents, and the container that
    refers to it. *)
Definition runs_server : omero :=
  {| projects := {[ 1 := mkObject "experiment" "alice" 0 None [] ]};
     datasets := {[ 2 := mkObject "process" "alice" 0 (Some 1)
                           [(40, FileAnnotation "run.md.json" EmptyFile);
                            (41, TagAnnotation "run_2.md.json");
                            (42, FileAnnotation "run_1.md.json" EmptyFile)] ]};
     images := ∅;
     next_id := 43; session_user := "alice"; clock := 0; calls := [] |}.

Definition runs_world : world := mkWorld ∅ runs_server.

Definition process_dataset : Dataset :=
  {| ds_md_uri := PInt 2; ds_uuid := PInt 2; ds_name := "process";
     ds_uris := [] |}.

(** What [create_run] returns for [sample_run] on [runs_server]. *)
Definition created_run : Run :=
  {| run_md_uri := PInt 43; run_uuid := PInt 43;
     process_name := process_name sample_run;
     process_uri := process_uri sample_run;
     processed_dataset := Some (mkContainer (PInt 2) (PInt 2));
     inputs := inputs sample_run;
     parameters := parameters sample_run |}.

(** ** More of the metadata service *)

Section Datasets.

(** [ConfigAccess.instance().config['workspace']] *)
Variable workspace : string.

(** *** The runs of a dataset *)

(** One round of the loop of [get_dataset_runs]: a file annotation whose
    name ends in md.json is written to the workspace and parsed there. *)
Definition download_run (ann : Z * annotation) : M (option Run) :=
  match snd ann with
  | FileAnnotation name content =>
      if ends_with "md.json" name then
        let file_path := path_join workspace name in
        update_files (λ fs, Ok (<[file_path := content]> fs));;
        run ← with_files (λ fs, _parse_run fs file_path);
        mret (Some run)
      else mret None
  | _ => mret None
  end.

Fixpoint download_runs (anns : list (Z * annotation)) : M (list Run) :=
  match anns with
  | [] => mret []
  | ann :: anns' =>
      run ← download_run ann;
      runs ← download_runs anns';
      mret (match run with
            | Some r => r :: runs
            | None => runs
            end)
  end.

Definition get_dataset_runs (dataset : Dataset) : M (list Run) :=
  omero_dataset ← getObject DatasetI (ds_md_uri dataset);
  match omero_dataset with
  | None => throw AttributeError
  | Some (did, _) =>
      anns ← listAnnotations DatasetI did;
      download_runs anns
  end.

(** *** Datasets *)

(** The identifiers of the images of a dataset. *)
Definition children_of (parent : Z) (m : gmap Z omero_object) : list Z :=
  map fst (filter (λ io, o_parent (snd io) = Some parent) (map_to_list m)).

(** [dataset.listChildren()]; a read of the server that the journal has no
    entry for. *)
Definition listChildren (did : Z) : M (list Z) :=
  read_server (λ s, children_of did (images s)).

Definition get_dataset (md_uri : pyval) : M Dataset :=
  dataset ← getObject DatasetI md_uri;
  match dataset with
  | None => throw (DataServiceError "Dataset not found")
  | Some (did, o) =>
      children ← listChildren did;
      mret {| ds_md_uri := PInt did; ds_uuid := PInt did;
              ds_name := o_name o;
              ds_uris := map (λ i, mkContainer (PInt i) (PInt i)) children |}
  end.

(** [update_dataset]: the parameter [dataset] is rebound to the object the
    server returns, so the name that is saved is the one that object has. *)
Definition update_dataset (dataset : Dataset) : M unit :=
  fetched ← getObject DatasetI (ds_md_uri dataset);
  match fetched with
  | None => throw AttributeError
  | Some (did, o) => save_name DatasetI did (o_name o)
  end.

Definition new_dataset (name : string) (s : omero) : omero_object :=
  mkObject name (session_user s) (clock s) None [].

(** The [ProjectDatasetLinkI] saved through the update service. *)
Definition save_project_link (project_id : pyval) (dataset_id : Z) : M unit :=
  match as_id project_id with
  | None => throw TypeError
  | Some p =>
      request (SaveLink project_id dataset_id);;
      update_server (λ s,
        set_objects DatasetI (alter (set_parent p) dataset_id (datasets s)) s)
  end.

Definition create_dataset (experiment : Experiment) (dataset_name : string)
  : M Dataset :=
  did ← fresh_id;
  request (SaveObject DatasetI did);;
  update_server (λ s,
    set_objects DatasetI (<[did := new_dataset dataset_name s]> (datasets s)) s);;
  save_project_link (exp_md_uri experiment) did;;
  mret {| ds_md_uri := PInt did; ds_uuid := PInt did;
          ds_name := dataset_name; ds_uris := [] |}.

(** *** The tags of an experiment *)

(** [ann.getValue()]: the text of a tag, the pairs of a map annotation,
    [None] for a file annotation. *)
Definition getValue (a : annotation) : pyval :=
  match a with
  | TagAnnotation value => PStr value
  | MapAnnotation value =>
      PList (map (λ kv, PList [PStr (fst kv); PStr (snd kv)]) value)
  | FileAnnotation _ _ => PNone
  end.

(** The first loop of [update_experiment]: the tags that are not among the
    keys are to be deleted, the value of every other annotation is noted. *)
Definition stale_tag (keys : list string) (ann : Z * annotation) : bool :=
  match snd ann with
  | TagAnnotation value => bool_decide (value ∉ keys)
  | _ => false
  end.

Definition tags_to_delete (keys : list string) (anns : list (Z * annotation))
  : list Z :=
  map fst (filter (λ ann, stale_tag keys ann = true) anns).

Definition existing_values (keys : list string)
    (anns : list (Z * annotation)) : list pyval :=
  map (λ ann, getValue (snd ann))
    (filter (λ ann, stale_tag keys ann = false) anns).

(** [TagAnnotationWrapper(conn)], [setValue], [save] *)
Definition create_tag_annotation (value : string) : M (Z * annotation) :=
  aid ← fresh_id;
  request (SaveAnnotation aid);;
  mret (aid, TagAnnotation value).

(** The second loop: a tag for each key whose text was not noted. *)
Fixpoint add_missing_tags (pid : Z) (existing_tags : list pyval)
    (keys : list string) : M unit :=
  match keys with
  | [] => mret tt
  | key :: keys' =>
      (if existsb (is_str key) existing_tags then mret tt
       else
         tag_ann ← create_tag_annotation key;
         linkAnnotation ProjectI pid tag_ann);;
      add_missing_tags pid existing_tags keys'
  end.

Definition update_experiment (experiment : Experiment) : M unit :=
  project ← getObject ProjectI (exp_md_uri experiment);
  match project with
  | None => throw AttributeError
  | Some (pid, _) =>
      save_name ProjectI pid (exp_name experiment);;
      anns ← listAnnotations ProjectI pid;
      let to_delete := tags_to_delete (keys experiment) anns in
      let existing_tags := existing_values (keys experiment) anns in
      match to_delete with
      | [] => mret tt
      | _ :: _ => deleteObjects to_delete
      end;;
      add_missing_tags pid existing_tags (keys experiment)
  end.

(** *** New processed data *)

(** [skimage.io.imread] on a value given as path: whether it reads an
    image from the workspace. *)
Variable imread : gmap string file_content → pyval → result unit.

(** [_create_image_data]: the file is read and the image is created in the
    dataset, or apart from any dataset when there is none. *)
Definition _create_image_data (source_file_uri : pyval) (image_name : string)
    (parent_dataset : option Z) : M Z :=
  with_files (λ fs, imread fs source_file_uri);;
  image_id ← fresh_id;
  request (SaveObject ImageI image_id);;
  update_server (λ s,
    set_objects ImageI
      (<[image_id := mkObject image_name (session_user s) (clock s)
                       parent_dataset []]> (images s)) s);;
  mret image_id.

(** [create_data]; the branch of the other formats reads [self.conn], an
    attribute the service does not have. *)
Definition create_data (dataset : Dataset) (run : Run)
    (processed_data : ProcessedData) : M ProcessedData :=
  omero_dataset ← getObject DatasetI (ds_md_uri dataset);
  image_id ←
    (if String.eqb (pd_format processed_data) "imagetiff" then
       _create_image_data (pd_uri processed_data) (pd_name processed_data)
         (fst <$> omero_dataset)
     else throw AttributeError);
  let processed_data :=
    {| pd_md_uri := PInt image_id; pd_uuid := PInt image_id;
       pd_uri := PInt image_id; pd_name := pd_name processed_data;
       pd_author := pd_author processed_data;
       pd_format := pd_format processed_data;
       pd_date := pd_date processed_data;
       pd_run := Some (mkContainer (run_md_uri run) (run_uuid run));
       pd_inputs := pd_inputs processed_data;
       pd_output := pd_output processed_data |} in
  update_processed_data workspace processed_data;;
  mret processed_data.

End Datasets.

(** ** Attachments seen from the workspace *)

(** The identifiers of the origin attachments an image carries. *)
Definition stale_origins (img : omero_object) : list Z :=
  map fst (filter (λ a, is_origin_attachment a = true) (o_annotations img)).

(** Whether an annotation is a file whose name ends in .md.json. *)
Definition md_attachment (ann : Z * annotation) : bool :=
  match snd ann with
  | FileAnnotation name _ => ends_with ".md.json" name
  | _ => false
  end.

(** The workspace once such an attachment is written under
    [destination_path]. *)
Definition downloaded (destination_path : string)
    (fs : gmap string file_content) (ann : Z * annotation)
  : gmap string file_content :=
  match snd ann with
  | FileAnnotation name content =>
      if ends_with ".md.json" name
      then <[path_join destination_path name := content]> fs
      else fs
  | _ => fs
  end.

(** A dataset that holds no run document yet. *)
Definition new_dataset_server : omero :=
  {| projects := {[ 1 := mkObject "experiment" "alice" 0 None [] ]};
     datasets := {[ 2 := mkObject "process" "alice" 0 (Some 1)
                           [(41, TagAnnotation "run.md.json")] ]};
     images := ∅;
     next_id := 43; session_user := "alice"; clock := 0; calls := [] |}.

Definition new_dataset_world : world := mkWorld ∅ new_dataset_server.


(** The stained experiment with an image file in the workspace. *)
Definition import_world : world :=
  mkWorld {[ "/data/nuclei.tif" := OpaqueFile ]} stained_server.

(** An experiment whose keys differ from the tags of the stained
    project. *)
Definition retagged_experiment : Experiment :=
  {| exp_md_uri := PInt 1; exp_uuid := PInt 1; exp_name := "stainings";
     exp_author := "alice"; exp_date := "2021-01-01";
     raw_dataset := Some (mkDatasetInfo "data" (PInt 2) (PInt 2));
     processed_datasets := []; keys := ["condition"; "stain"] |}.

(** A reader of images that finds the files of the workspace and nothing
    else. *)
Definition reads_files (fs : gmap string file_content) (source : pyval)
    : result unit :=
  match source with
  | PStr path => match fs !! path with
                 | Some _ => Ok tt
                 | None => Raise OSError
                 end
  | _ => Raise TypeError
  end.

(** The result of a process on the image file of [import_world], before it
    is known to the server. *)
Definition segmented_data : ProcessedData :=
  {| pd_md_uri := PStr ""; pd_uuid := PStr ""; pd_uri := PStr "/data/nuclei.tif";
     pd_name := "nuclei.tif"; pd_author := ""; pd_format := "imagetiff";
     pd_date := "";
     pd_run := None;
     pd_inputs := [mkProcessedDataInput (PStr "image") (PInt 3) (PInt 3)
                     (PStr "raw")];
     pd_output := {[ "name" := PStr "mask"; "label" := PStr "Mask" ]} |}.

(** ** Upload of local files

    [upload_files] sends the bytes of each local file to an uploader of the
    import process, in blocks. The calls on the uploaders are kept in the
    order they are made. *)

Inductive upload_call : Type :=
| GetUploader (i : nat)
| RfsWrite (i : nat) (block : list Byte.byte) (offset : Z) (len : Z)
| RfsClose (i : nat).

(** The size of a block: [1000 * 1000] bytes. *)
Definition block_size : nat := Z.to_nat (1000 * 1000).
Global Arguments block_size : simpl never.

(** The [while True] loop on an open file whose unread bytes are [rest]:
    [f.read] returns the next block, the empty one at the end of the file.
    Every round but the last reads a byte at least, so that a file is read
    in no more rounds than it has bytes, and one more: [fuel] counts the
    rounds. *)
Fixpoint write_blocks (fuel : nat) (i : nat) (offset : Z)
    (rest : list Byte.byte) : list upload_call :=
  match fuel with
  | O => []
  | S fuel' =>
      match take block_size rest with
      | [] => []
      | (_ :: _) as block =>
          RfsWrite i block offset (Z.of_nat (length block))
          :: write_blocks fuel' i (offset + Z.of_nat (length block))
               (drop block_size rest)
      end
  end.

(** The body of the [with] statement but for the hash: the empty write
    that touches the remote file, then the loop. *)
Definition upload_content (i : nat) (content : list Byte.byte)
    : list upload_call :=
  RfsWrite i [] 0 (Z.of_nat (length (@nil Byte.byte)))
  :: write_blocks (S (length content)) i 0 content.

Section Upload.

(** [client.sha1] on the bytes of a file. *)
Variable sha1 : list Byte.byte → string.

(** The local files by path. *)
Variable local : gmap string (list Byte.byte).

(** The [for] loop of [upload_files] from the index [i] on: the hashes it
    returns or the exception it raises, and the calls it made. A file that
    cannot be opened ends the loop, after the [finally] clause closed its
    uploader. *)
Fixpoint upload_from (i : nat) (files : list string)
    : result (list string) * list upload_call :=
  match files with
  | [] => (Ok [], [])
  | fobj :: files' =>
      match local !! fobj with
      | None => (Raise OSError, [GetUploader i; RfsClose i])
      | Some content =>
          let '(ret_val, calls) := upload_from (S i) files' in
          (hashes ← ret_val; Ok (sha1 content :: hashes),
           GetUploader i :: upload_content i content ++ RfsClose i :: calls)
      end
  end.

Definition upload_files (files : list string)
    : result (list string) * list upload_call :=
  upload_from 0 files.

End Upload.

(** The writes that send [blocks] one after the other from [offset] on. *)
Fixpoint writes_from (i : nat) (offset : Z) (blocks : list (list Byte.byte))
    : list upload_call :=
  match blocks with
  | [] => []
  | block :: blocks' =>
      RfsWrite i block offset (Z.of_nat (length block))
      :: writes_from i (offset + Z.of_nat (length block)) blocks'
  end.

(** The uploaders obtained and the uploaders closed, in the order of the
    calls. *)
Definition opened (calls : list upload_call) : list nat :=
  omap (λ c, match c with GetUploader i => Some i | _ => None end) calls.

Definition closed (calls : list upload_call) : list nat :=
  omap (λ c, match c with RfsClose i => Some i | _ => None end) calls.

(** Whether the calls use one uploader at a time: an uploader is obtained
    when none is open, written to while it is the open one, and closed
    before the calls end. *)
Fixpoint one_at_a_time (current : option nat) (calls : list upload_call)
    : bool :=
  match calls with
  | [] => match current with None => true | Some _ => false end
  | GetUploader i :: calls' =>
      match current with
      | None => one_at_a_time (Some i) calls'
      | Some _ => false
      end
  | RfsWrite i _ _ _ :: calls' =>
      match current with
      | Some j => Nat.eqb i j && one_at_a_time current calls'
      | None => false
      end
  | RfsClose i :: calls' =>
      match current with
      | Some j => Nat.eqb i j && one_at_a_time None calls'
      | None => false
      end
  end.

(** Two files of the workspace as bytes. *)
Definition local_bytes : gmap string (list Byte.byte) :=
  {[ "/data/a.tif" := [Byte.x49; Byte.x49; Byte.x2a; Byte.x00];
     "/data/c.tif" := [Byte.x4d; Byte.x4d] ]}.

(** * Properties *)

(** ** Round trip of the run document *)

Ltac unfold_result := unfold mbind, mret, result_bind, result_ret in *.

Lemma decode_encode_input (i : RunInputContainer) :
  decode_input (encode_input i) = Ok i.
Proof. by destruct i. Qed.

Lemma decode_encode_parameter (p : RunParameterContainer) :
  decode_parameter (encode_parameter p) = Ok p.
Proof. by destruct p. Qed.

Lemma for_each_map_inverse {A : Type} (enc : A → pyval) (dec : pyval → result A)
    (l : list A) :
  (∀ x, dec (enc x) = Ok x) → for_each dec (map enc l) = Ok l.
Proof.
  intros Hinv. induction l as [|x l IH]; [done|].
  simpl. rewrite Hinv. unfold_result. by rewrite IH.
Qed.

Lemma run_of_metadata_inverse (run : Run) (path : string) (doc : pyval) :
  run_md_uri run = PStr path →
  run_metadata run = Ok doc →
  run_of_metadata path doc = Ok run.
Proof.
  intros Hpath Hdoc. unfold run_metadata in Hdoc.
  destruct run as [uri uuid pn pu [[dsuri dsuuid]|] ins ps]; simplify_eq/=.
  unfold run_of_metadata. simpl. unfold_result. simpl.
  rewrite (for_each_map_inverse _ _ ins decode_encode_input).
  by rewrite (for_each_map_inverse _ _ ps decode_encode_parameter).
Qed.

Lemma parse_write_run (run : Run) (files : gmap string file_content)
    (path : string) :
  run_md_uri run = PStr path →
  path ≠ "" →
  is_Some (processed_dataset run) →
  ∃ files', _write_run run files = Ok files' ∧ _parse_run files' path = Ok run.
Proof.
  intros Hpath Hne [ds Hds].
  destruct (run_metadata run) as [doc|e] eqn:Hdoc;
    [|unfold run_metadata in Hdoc; by rewrite Hds in Hdoc].
  exists (<[path := JsonFile doc]> files). split.
  - unfold _write_run. rewrite Hdoc. unfold_result. unfold _write_json.
    rewrite Hpath. by rewrite decide_False.
  - unfold _parse_run, _read_json. rewrite lookup_insert_eq. unfold_result.
    by apply run_of_metadata_inverse.
Qed.

(** C1: for every Run with a non-empty inputs list and a non-empty
    parameters list (written to a path, with its processed dataset set),
    [_parse_run] on the document that [_write_run] wrote returns that very
    Run: every field, the lists in their order. *)
Theorem run_round_trip (run : Run) (fs : gmap string file_content)
    (path : string) :
  run_md_uri run = PStr path →
  path ≠ "" →
  is_Some (processed_dataset run) →
  inputs run ≠ [] →
  parameters run ≠ [] →
  ∃ fs', _write_run run fs = Ok fs' ∧ _parse_run fs' path = Ok run.
Proof. intros Hpath Hne Hds _ _. by apply parse_write_run. Qed.

Lemma run_round_trip_witness :
  ∃ fs', _write_run sample_run ∅ = Ok fs'
         ∧ _parse_run fs' "/workspace/run.md.json" = Ok sample_run.
Proof.
  apply (run_round_trip sample_run ∅ "/workspace/run.md.json").
  - reflexivity.
  - discriminate.
  - eexists; reflexivity.
  - discriminate.
  - discriminate.
Defined.

(** ** Values of parameters in the run document *)

Lemma run_metadata_parameters (run : Run) (doc : pyval) :
  run_metadata run = Ok doc →
  py_getitem doc "parameters"
  = Ok (PList (map encode_parameter (parameters run))).
Proof.
  unfold run_metadata. destruct (processed_dataset run); [|done].
  by intros [= <-].
Qed.

Lemma sample_run_value_not_text : ¬ values_serialized_as_text sample_run.
Proof.
  intros H.
  destruct (H _ _ (encode_parameter (mkRunParameter (PStr "threshold") (PInt 3)))
              eq_refl eq_refl) as [s Hs].
  - simpl. set_solver.
  - discriminate.
Qed.

(** C8, amended: encoding a Run writes the value of each parameter as it is
    in memory; the value entry of an encoded parameter is a string exactly
    when the value in memory is one. *)
Theorem parameter_value_written_unchanged (run : Run) (doc : pyval) :
  run_metadata run = Ok doc →
  py_getitem doc "parameters"
  = Ok (PList (map encode_parameter (parameters run)))
  ∧ ∀ p, p ∈ parameters run →
      py_getitem (encode_parameter p) "value" = Ok (rp_value p)
      ∧ ((∃ s, py_getitem (encode_parameter p) "value" = Ok (PStr s))
         ↔ ∃ s, rp_value p = PStr s).
Proof.
  intros Hdoc. split; [by apply run_metadata_parameters|].
  intros p _. split; [done|]. simpl.
  split; intros [s Hs]; exists s; congruence.
Qed.

Lemma parameter_value_written_unchanged_witness :
  py_getitem
    (PDict [("uuid", PStr "");
            ("process", PDict [("name", PStr "gaussian2d");
                               ("url", PStr "/toolboxes/gaussian2d.xml")]);
            ("processed_dataset", PDict [("uuid", PInt 12); ("url", PInt 12)]);
            ("inputs", PList (map encode_input (inputs sample_run)));
            ("parameters", PList (map encode_parameter (parameters sample_run)))])
    "parameters"
  = Ok (PList (map encode_parameter (parameters sample_run)))
  ∧ ∀ p, p ∈ parameters sample_run →
      py_getitem (encode_parameter p) "value" = Ok (rp_value p)
      ∧ ((∃ s, py_getitem (encode_parameter p) "value" = Ok (PStr s))
         ↔ ∃ s, rp_value p = PStr s).
Proof.
  apply (parameter_value_written_unchanged sample_run). reflexivity.
Defined.

(** ** Documents that do not decode *)

Lemma bind_Ok {A B : Type} (m : result A) (f : A → result B) (b : B) :
  m ≫= f = Ok b → ∃ a, m = Ok a ∧ f a = Ok b.
Proof. destruct m as [a|e]; unfold_result; [intros; eauto|done]. Qed.

Lemma bind_Raise {A B : Type} (m : result A) (f : A → result B) (e : exn) :
  m ≫= f = Raise e → m = Raise e ∨ ∃ a, m = Ok a ∧ f a = Raise e.
Proof.
  destruct m as [a|e']; unfold_result; [intros; right; eauto|].
  intros [= ->]. by left.
Qed.

Lemma py_getitem_Raise (v : pyval) (k : string) (e : exn) :
  py_getitem v k = Raise e → lookup_error e.
Proof.
  unfold lookup_error. destruct v; simpl; try (intros [= <-]; by right).
  destruct (dict_get k d); [done|]. intros [= <-]. by left.
Qed.

Lemma py_iter_Raise (v : pyval) (e : exn) :
  py_iter v = Raise e → lookup_error e.
Proof. unfold lookup_error. destruct v; simpl; intros [= <-]; by right. Qed.

Lemma for_each_Raise {A B : Type} (f : A → result B) (l : list A) (e : exn) :
  for_each f l = Raise e → ∃ x, x ∈ l ∧ f x = Raise e.
Proof.
  induction l as [|x l IH]; [done|]. simpl. intros H.
  apply bind_Raise in H as [H|(y & Hy & H)].
  - exists x. split; [left|done].
  - apply bind_Raise in H as [H|(ys & _ & H)]; [|done].
    destruct (IH H) as (x' & Hin & Hx'). exists x'. split; [by right|done].
Qed.

Lemma for_each_Ok {A B : Type} (f : A → result B) (l : list A) (ys : list B) :
  for_each f l = Ok ys → Forall (λ x, ∃ y, f x = Ok y) l.
Proof.
  revert ys. induction l as [|x l IH]; intros ys; [constructor|].
  simpl. intros H. apply bind_Ok in H as (y & Hy & H).
  apply bind_Ok in H as (ys' & Hys & _).
  constructor; [by exists y|by eapply IH].
Qed.

Ltac split_bind H :=
  repeat (apply bind_Raise in H as [H|(? & ? & H)];
          [try (by eapply py_getitem_Raise); try (by eapply py_iter_Raise)|]).

Lemma decode_input_Raise (v : pyval) (e : exn) :
  decode_input v = Raise e → lookup_error e.
Proof. unfold decode_input. intros H. split_bind H. done. Qed.

Lemma decode_parameter_Raise (v : pyval) (e : exn) :
  decode_parameter v = Raise e → lookup_error e.
Proof. unfold decode_parameter. intros H. split_bind H. done. Qed.

Lemma run_of_metadata_Raise (path : string) (doc : pyval) (e : exn) :
  run_of_metadata path doc = Raise e → lookup_error e.
Proof.
  unfold run_of_metadata. intros H. split_bind H.
  - apply for_each_Raise in H as (item & _ & Hitem).
    by eapply decode_input_Raise.
  - apply for_each_Raise in H as (item & _ & Hitem).
    by eapply decode_parameter_Raise.
  - done.
Qed.

Lemma has_path_1 (doc x : pyval) (k : string) :
  py_getitem doc k = Ok x → has_path doc [k] = true.
Proof. intros H. unfold has_path. simpl. by rewrite H. Qed.

Lemma has_path_2 (doc x y : pyval) (k1 k2 : string) :
  py_getitem doc k1 = Ok x → py_getitem x k2 = Ok y →
  has_path doc [k1; k2] = true.
Proof.
  intros H1 H2. unfold has_path. simpl. rewrite H1. unfold_result.
  by rewrite H2.
Qed.

Lemma py_getitem_has_key (v x : pyval) (k : string) :
  py_getitem v k = Ok x → ∃ d, v = PDict d ∧ has_key d k = true.
Proof.
  destruct v; try done. simpl.
  destruct (dict_get k d) eqn:Hk; [|done]. intros _.
  exists d. unfold has_key. by rewrite Hk.
Qed.

Lemma decode_input_Ok (v : pyval) (i : RunInputContainer) :
  decode_input v = Ok i → object_with_keys input_keys v = true.
Proof.
  unfold decode_input. intros H.
  apply bind_Ok in H as (n & Hn & H). apply bind_Ok in H as (d & Hd & H).
  apply bind_Ok in H as (q & Hq & H). apply bind_Ok in H as (o & Ho & _).
  apply py_getitem_has_key in Hn as (dn & -> & Hn).
  apply py_getitem_has_key in Hd as (? & [= <-] & Hd).
  apply py_getitem_has_key in Hq as (? & [= <-] & Hq).
  apply py_getitem_has_key in Ho as (? & [= <-] & Ho).
  simpl. by rewrite Hn, Hd, Hq, Ho.
Qed.

Lemma decode_parameter_Ok (v : pyval) (p : RunParameterContainer) :
  decode_parameter v = Ok p → object_with_keys parameter_keys v = true.
Proof.
  unfold decode_parameter. intros H.
  apply bind_Ok in H as (n & Hn & H). apply bind_Ok in H as (x & Hx & _).
  apply py_getitem_has_key in Hn as (dn & -> & Hn).
  apply py_getitem_has_key in Hx as (? & [= <-] & Hx).
  simpl. by rewrite Hn, Hx.
Qed.

(** What a loop that ran to its end tells about the value it ran over. *)
Lemma iterated_shape {A : Type} (dec : pyval → result A) (ks : list string)
    (v : pyval) (items : list pyval) (out : list A) :
  (∀ x y, dec x = Ok y → object_with_keys ks x = true) →
  py_iter v = Ok items →
  for_each dec items = Ok out →
  list_of_objects ks v = true ∨ iterates_empty v = true.
Proof.
  intros Hdec Hiter Heach. apply for_each_Ok in Heach.
  destruct v as [| | |s|l|d]; simplify_eq/=.
  - destruct s as [|c s]; [by right|].
    apply Forall_cons in Heach as [[y Hy] _]. by apply Hdec in Hy.
  - left. apply forallb_forall. intros x Hx.
    rewrite Forall_forall in Heach.
    destruct (Heach x) as [y Hy]; [by apply list_elem_of_In|by eapply Hdec].
  - destruct d as [|[k x] d]; [by right|].
    apply Forall_cons in Heach as [[y Hy] _]. by apply Hdec in Hy.
Qed.

Lemma run_of_metadata_Ok (path : string) (doc : pyval) (run : Run) :
  run_of_metadata path doc = Ok run → ¬ malformed_run_document doc.
Proof.
  unfold run_of_metadata. intros H.
  apply bind_Ok in H as (uuid & Huuid & H).
  apply bind_Ok in H as (pr & Hpr & H).
  apply bind_Ok in H as (pn & Hpn & H).
  apply bind_Ok in H as (pr' & Hpr' & H).
  apply bind_Ok in H as (pu & Hpu & H).
  apply bind_Ok in H as (pd & Hpd & H).
  apply bind_Ok in H as (pdurl & Hpdurl & H).
  apply bind_Ok in H as (pd' & Hpd' & H).
  apply bind_Ok in H as (pduuid & Hpduuid & H).
  apply bind_Ok in H as (ins & Hins & H).
  apply bind_Ok in H as (items & Hitems & H).
  apply bind_Ok in H as (inputs & Hinputs & H).
  apply bind_Ok in H as (ps & Hps & H).
  apply bind_Ok in H as (pitems & Hpitems & H).
  apply bind_Ok in H as (params & Hparams & _).
  intros [Hmiss|[(v & Hv & Hshape & Hempty)|(v & Hv & Hshape & Hempty)]].
  - unfold misses_required_key, required_keys in Hmiss. simpl in Hmiss.
    rewrite (has_path_1 _ _ _ Huuid), (has_path_2 _ _ _ _ _ Hpr Hpn),
      (has_path_2 _ _ _ _ _ Hpr' Hpu), (has_path_2 _ _ _ _ _ Hpd' Hpduuid),
      (has_path_2 _ _ _ _ _ Hpd Hpdurl) in Hmiss.
    done.
  - rewrite Hins in Hv. simplify_eq.
    destruct (iterated_shape _ input_keys _ _ _ decode_input_Ok Hitems Hinputs);
      congruence.
  - rewrite Hps in Hv. simplify_eq.
    destruct (iterated_shape _ parameter_keys _ _ _ decode_parameter_Ok
                Hpitems Hparams); congruence.
Qed.

Lemma uuid_only_document_not_malformed_error :
  _parse_run uuid_only_files "/workspace/run.md.json"
  = Raise (KeyError "process")
  ∧ exn_name (KeyError "process") ≠ "MalformedDocumentError"
  ∧ ∃ run, run_of_metadata "/workspace/run.md.json" text_inputs_document
           = Ok run ∧ inputs run = [] ∧ parameters run = [].
Proof.
  split; [by vm_compute|]. split; [discriminate|].
  eexists. split; [reflexivity|done].
Qed.

(** C2, amended: decoding a document in which one of the keys uuid,
    process.name, process.url, processed_dataset.uuid, processed_dataset.url
    is missing raises a KeyError or a TypeError (there is no
    MalformedDocumentError), and so does a document whose inputs or
    parameters entry is not a list of objects with the required keys,
    unless that entry is an empty string or an empty object. *)
Theorem malformed_run_document_raises (fs : gmap string file_content)
    (path : string) (doc : pyval) :
  fs !! path = Some (JsonFile doc) →
  malformed_run_document doc →
  ∃ e, _parse_run fs path = Raise e ∧ lookup_error e.
Proof.
  intros Hfile Hbad. unfold _parse_run, _read_json. rewrite Hfile.
  unfold_result.
  destruct (run_of_metadata path doc) as [run|e] eqn:Hrun.
  - by apply run_of_metadata_Ok in Hrun.
  - exists e. split; [done|]. by eapply run_of_metadata_Raise.
Qed.

Lemma malformed_run_document_raises_witness :
  ∃ e, _parse_run uuid_only_files "/workspace/run.md.json" = Raise e
       ∧ lookup_error e.
Proof.
  apply (malformed_run_document_raises uuid_only_files
           "/workspace/run.md.json" uuid_only_document).
  - reflexivity.
  - left. reflexivity.
Defined.

(** ** Names of run documents *)

Lemma list_ascii_of_string_app (a b : string) :
  list_ascii_of_string (a +:+ b)
  = list_ascii_of_string a ++ list_ascii_of_string b.
Proof. induction a as [|c a IH]; [done|]. cbn. by rewrite <-IH. Qed.

Lemma string_app_inv_tail (a b s : string) : a +:+ s = b +:+ s → a = b.
Proof.
  intros H. apply (f_equal list_ascii_of_string) in H.
  rewrite !list_ascii_of_string_app in H. apply app_inv_tail in H.
  rewrite <-(string_of_list_ascii_of_string a),
    <-(string_of_list_ascii_of_string b).
  by rewrite H.
Qed.

Global Instance run_name_sequence_inj : Inj (=) (=) run_name_sequence.
Proof.
  intros [|n] [|m] H; [done|discriminate H|discriminate H|].
  unfold run_name_sequence in H.
  apply (inj (String.app "run_")) in H.
  apply string_app_inv_tail in H. by apply (inj pretty) in H.
Qed.

(** Not every name of a sequence longer than the list is in the list. *)
Lemma run_names_not_all_taken (ann_files : list string) (n : nat) :
  (∀ j, (j < n)%nat → run_name_sequence j ∈ ann_files) →
  (n ≤ length ann_files)%nat.
Proof.
  intros Hall.
  assert (run_name_sequence <$> seq 0 n ⊆+ ann_files) as Hsub.
  { apply NoDup_submseteq.
    - apply (NoDup_fmap_2 run_name_sequence), NoDup_seq.
    - intros x (j & -> & Hj)%list_elem_of_fmap.
      apply elem_of_seq in Hj. apply Hall. lia. }
  apply submseteq_length in Hsub. by rewrite length_fmap, length_seq in Hsub.
Qed.

Lemma free_run_name_spec (fuel : nat) (ann_files : list string) (c : nat) :
  (∀ j, (j < c)%nat → run_name_sequence j ∈ ann_files) →
  (length ann_files < c + fuel)%nat →
  ∃ k, free_run_name fuel ann_files (run_name_sequence c) c
       = run_name_sequence k
       ∧ (run_name_sequence k ∉ ann_files)
       ∧ (∀ j, (j < k)%nat → run_name_sequence j ∈ ann_files).
Proof.
  revert c. induction fuel as [|fuel IH]; intros c Hbelow Hfuel.
  - apply run_names_not_all_taken in Hbelow. lia.
  - simpl. case_bool_decide as Hin.
    + destruct (IH (S c)) as (k & Hk & Hfree & Hall); [|lia|by exists k].
      intros j Hj. destruct (decide (j = c)) as [->|]; [done|].
      apply Hbelow. lia.
    + by exists c.
Qed.

Example run_name_after_two :
  run_md_file_name ["run.md.json"; "run_1.md.json"] = "run_2.md.json".
Proof. by vm_compute. Qed.

Example run_name_skips_gap :
  run_md_file_name ["run_1.md.json"; "notes.txt"; "run.md.json"; "run_3.md.json"]
  = "run_2.md.json".
Proof. by vm_compute. Qed.

(** ** The key-value pairs of raw data *)

Ltac unfold_M :=
  unfold mbind, mret, M_bind, M_ret, throw, lift, request, read_server,
    update_server, with_files, update_files, remove_if_exists, fresh_id in *.

Lemma last_value_app (k : string) (l1 l2 : list (string * string)) :
  last_value k (l1 ++ l2)
  = match last_value k l2 with
    | Some v => Some v
    | None => last_value k l1
    end.
Proof.
  induction l1 as [|[k' v] l1 IH]; simpl.
  - by destruct (last_value k l2).
  - rewrite IH. by destruct (last_value k l2).
Qed.

Lemma lookup_foldl_insert (k : string) (values : list (string * string))
    (m : gmap string string) :
  foldl (λ m value, <[fst value := snd value]> m) m values !! k
  = match last_value k values with
    | Some v => Some v
    | None => m !! k
    end.
Proof.
  revert m. induction values as [|[k' v] values IH]; intros m; [done|].
  simpl. rewrite IH. destruct (last_value k values); [done|].
  rewrite lookup_insert. by destruct (decide (k' = k)).
Qed.

Lemma lookup_foldl_add_pairs (k : string) (anns : list (Z * annotation))
    (m : gmap string string) :
  foldl add_pairs m anns !! k
  = match last_value k (item_level_pairs anns) with
    | Some v => Some v
    | None => m !! k
    end.
Proof.
  revert m. induction anns as [|[aid ann] anns IH]; intros m; [done|].
  simpl. rewrite IH, last_value_app.
  destruct (last_value k (item_level_pairs anns)); [done|].
  unfold add_pairs. simpl. destruct ann; try done.
  apply lookup_foldl_insert.
Qed.

Lemma experiment_tags_cons (aid : Z) (ann : annotation)
    (anns : list (Z * annotation)) :
  experiment_tags ((aid, ann) :: anns)
  = match ann with
    | TagAnnotation value => value :: experiment_tags anns
    | _ => experiment_tags anns
    end.
Proof. by destruct ann. Qed.

Lemma bool_decide_elem_of_cons_ne (k t : string) (l : list string) :
  k ≠ t → bool_decide (k ∈ t :: l) = bool_decide (k ∈ l).
Proof.
  intros Hne. apply bool_decide_ext. rewrite elem_of_cons.
  split; [intros [?|?]; [congruence|done]|by right].
Qed.

Lemma lookup_foldl_add_tag (k : string) (anns : list (Z * annotation))
    (m : gmap string string) :
  foldl add_tag m anns !! k
  = match m !! k with
    | Some v => Some v
    | None => if bool_decide (k ∈ experiment_tags anns) then Some "" else None
    end.
Proof.
  revert m. induction anns as [|[aid ann] anns IH]; intros m.
  { simpl. by destruct (m !! k). }
  cbn [foldl]. rewrite IH, experiment_tags_cons. unfold add_tag. cbn [snd].
  destruct ann as [t| |]; try done.
  destruct (m !! t) eqn:Ht.
  - destruct (m !! k) eqn:Hk; [done|].
    rewrite bool_decide_elem_of_cons_ne by congruence. done.
  - rewrite lookup_insert. destruct (decide (t = k)) as [->|Hne].
    + rewrite Ht. rewrite bool_decide_eq_true_2 by set_solver. done.
    + destruct (m !! k); [done|].
      rewrite bool_decide_elem_of_cons_ne by congruence. done.
Qed.

Lemma as_id_Some (v : pyval) (i : Z) : as_id v = Some i → v = PInt i.
Proof. destruct v; simpl; congruence. Qed.

(** C4: the key-value pairs [get_raw_data] returns are the item-level pairs
    of the image's map annotations merged with the tags of the experiment:
    a key that has an item-level pair resolves to its (last) item-level
    value, and a tag gives an entry with the empty string only for a key
    that has no item-level pair. *)
Theorem raw_data_item_level_wins (format_date : Z → string) (md_uri : pyval)
    (w w' : world) (container : RawData) :
  get_raw_data format_date md_uri w = (Ok container, w') →
  ∃ iid img did ds pid project,
    md_uri = PInt iid
    ∧ images (server w) !! iid = Some img
    ∧ o_parent img = Some did
    ∧ datasets (server w) !! did = Some ds
    ∧ o_parent ds = Some pid
    ∧ projects (server w) !! pid = Some project
    ∧ ∀ k,
        key_value_pairs container !! k
        = match last_value k (item_level_pairs (o_annotations img)) with
          | Some v => Some v
          | None =>
              if bool_decide (k ∈ experiment_tags (o_annotations project))
              then Some "" else None
          end.
Proof.
  unfold get_raw_data, getObject, getParent, listAnnotations. unfold_M.
  simpl. intros H.
  destruct (as_id md_uri) as [iid|] eqn:Hid; simpl in H; [|done].
  apply as_id_Some in Hid as ->.
  destruct (images (server w) !! iid) as [img|] eqn:Himg; simpl in H; [|done].
  rewrite !Himg in H. simpl in H.
  destruct (o_parent img) as [did|] eqn:Hdid; simpl in H; [|done].
  destruct (datasets (server w) !! did) as [ds|] eqn:Hds; simpl in H; [|done].
  destruct (o_parent ds) as [pid|] eqn:Hpid; simpl in H; [|done].
  destruct (projects (server w) !! pid) as [project|] eqn:Hproject;
    simpl in H; [|done].
  rewrite ?Hproject in H. simplify_eq.
  exists iid, img, did, ds, pid, project. repeat split; try done.
  intros k. simpl.
  rewrite lookup_foldl_add_tag, lookup_foldl_add_pairs, lookup_empty.
  by destruct (last_value k (item_level_pairs (o_annotations img))).
Qed.

Lemma raw_data_item_level_wins_witness :
  ∃ iid img did ds pid project,
    PInt 3 = PInt iid
    ∧ images (server stained_world) !! iid = Some img
    ∧ o_parent img = Some did
    ∧ datasets (server stained_world) !! did = Some ds
    ∧ o_parent ds = Some pid
    ∧ projects (server stained_world) !! pid = Some project
    ∧ ∀ k,
        key_value_pairs stained_raw_data !! k
        = match last_value k (item_level_pairs (o_annotations img)) with
          | Some v => Some v
          | None =>
              if bool_decide (k ∈ experiment_tags (o_annotations project))
              then Some "" else None
          end.
Proof.
  apply (raw_data_item_level_wins (λ _, "1970-01-02") (PInt 3) stained_world
           (snd (get_raw_data (λ _, "1970-01-02") (PInt 3) stained_world))).
  vm_compute. reflexivity.
Defined.

Example stain_resolves_to_DAPI (format_date : Z → string) :
  fst (get_raw_data format_date (PInt 3) stained_world)
  = Ok {| rd_md_uri := PInt 3; rd_uuid := PInt 3; rd_uri := PInt 3;
          rd_type := "raw"; rd_name := "cells.tif"; rd_author := "alice";
          rd_format := "imagetiff"; rd_date := format_date 86400000;
          key_value_pairs := {[ "stain" := "DAPI"; "batch" := "" ]} |}.
Proof. by vm_compute. Qed.

(** ** The format gate of [import_data] *)

Lemma czi_import_contacts_server :
  ¬ rejects_without_contact sample_experiment "/data/cells.czi" "cells.czi"
      "alice" "czi" "2021-01-01" ∅ stained_world.
Proof.
  intros (e & w' & Hrun & Hname & Hcalls).
  vm_compute in Hrun. by simplify_eq.
Qed.

Example czi_import_journal :
  import_data sample_experiment "/data/cells.czi" "cells.czi" "alice" "czi"
    "2021-01-01" ∅ stained_world
  = (Raise (DataServiceError
              "OMERO service can only import tiff images (format=czi)"),
     mkWorld ∅ (journal (GetObject DatasetI (PInt 2)) stained_server)).
Proof. by vm_compute. Qed.

(** C5, amended: every call of [import_data] with a format tag other than
    imagetiff raises and changes nothing: the projects, datasets and images
    of the server, its next identifier and the local workspace are as they
    were. When the experiment has a raw dataset, the exception is the
    DataServiceError of the format test and the one request made is the
    lookup of that dataset; when it has none, reading the url of the raw
    dataset raises an AttributeError before any request. *)
Theorem import_rejects_other_formats (experiment : Experiment)
    (data_path name author format_ date : string)
    (key_value_pairs : gmap string string) (w : world) :
  format_ ≠ "imagetiff" →
  ∃ e w',
    import_data experiment data_path name author format_ date key_value_pairs w
    = (Raise e, w')
    ∧ match raw_dataset experiment with
      | Some info =>
          e = DataServiceError
                ("OMERO service can only import tiff images (format="
                   +:+ format_ +:+ ")")
          ∧ server w' = journal (GetObject DatasetI (di_url info)) (server w)
      | None => e = AttributeError ∧ server w' = server w
      end
    ∧ files w' = files w
    ∧ projects (server w') = projects (server w)
    ∧ datasets (server w') = datasets (server w)
    ∧ images (server w') = images (server w)
    ∧ next_id (server w') = next_id (server w).
Proof.
  intros Hformat%String.eqb_neq. unfold import_data, getObject. unfold_M.
  destruct (raw_dataset experiment) as [info|]; simpl; [|by eexists _, _].
  rewrite Hformat. simpl. by eexists _, _.
Qed.

Lemma import_rejects_other_formats_witness :
  ∃ e w',
    import_data sample_experiment "/data/cells.czi" "cells.czi" "alice" "czi"
      "2021-01-01" ∅ stained_world
    = (Raise e, w')
    ∧ match raw_dataset sample_experiment with
      | Some info =>
          e = DataServiceError
                ("OMERO service can only import tiff images (format="
                   +:+ "czi" +:+ ")")
          ∧ server w'
            = journal (GetObject DatasetI (di_url info)) (server stained_world)
      | None => e = AttributeError ∧ server w' = server stained_world
      end
    ∧ files w' = files stained_world
    ∧ projects (server w') = projects (server stained_world)
    ∧ datasets (server w') = datasets (server stained_world)
    ∧ images (server w') = images (server stained_world)
    ∧ next_id (server w') = next_id (server stained_world).
Proof.
  apply (import_rejects_other_formats sample_experiment).
  discriminate.
Defined.

(** An experiment that has no raw dataset: the call ends before the
    format is looked at, and before any request. *)
Example czi_import_without_raw_dataset :
  import_data
    {| exp_md_uri := exp_md_uri sample_experiment;
       exp_uuid := exp_uuid sample_experiment;
       exp_name := exp_name sample_experiment;
       exp_author := exp_author sample_experiment;
       exp_date := exp_date sample_experiment;
       raw_dataset := None;
       processed_datasets := processed_datasets sample_experiment;
       keys := keys sample_experiment |}
    "/data/cells.czi" "cells.czi" "alice" "czi" "2021-01-01" ∅ stained_world
  = (Raise AttributeError, stained_world).
Proof. by vm_compute. Qed.

(** ** The output of processed data *)

Lemma decode_output_key_absent (metadata : pyval) (key : string)
    (d : list (string * pyval)) (output : gmap string pyval) :
  py_path metadata ["origin"; "output"] = Ok (PDict d) →
  dict_get key d = None →
  decode_output_key metadata key output = Ok output.
Proof.
  intros Hout Hkey. unfold decode_output_key. rewrite Hout. unfold_result.
  simpl. by rewrite Hkey.
Qed.

Lemma decode_output_key_lookup (metadata : pyval) (key key' : string)
    (output output' : gmap string pyval) :
  decode_output_key metadata key output = Ok output' →
  key ≠ key' →
  output' !! key' = output !! key'.
Proof.
  unfold decode_output_key. intros H Hne.
  apply bind_Ok in H as (out & _ & H).
  apply bind_Ok in H as ([] & _ & H); [|by simplify_eq].
  apply bind_Ok in H as (v & _ & H). simplify_eq.
  by rewrite lookup_insert_ne.
Qed.

(** Decoding keeps a missing label (or name) missing: the output of the
    container has no entry for it. *)
Lemma origin_without_key_decodes_absent (metadata : pyval) (key : string)
    (d : list (string * pyval)) (run : Container)
    (ins : list ProcessedDataInputContainer) (output : gmap string pyval) :
  key = "name" ∨ key = "label" →
  py_path metadata ["origin"; "output"] = Ok (PDict d) →
  dict_get key d = None →
  origin_of_metadata metadata = Ok (run, ins, output) →
  output !! key = None.
Proof.
  intros Hkey Hout Hnone. unfold origin_of_metadata. intros H.
  apply bind_Ok in H as (url & _ & H). apply bind_Ok in H as (uuid & _ & H).
  apply bind_Ok in H as (v & _ & H). apply bind_Ok in H as (items & _ & H).
  apply bind_Ok in H as (inputs & _ & H).
  apply bind_Ok in H as (o1 & Ho1 & H). apply bind_Ok in H as (o2 & Ho2 & H).
  simplify_eq. destruct Hkey as [-> | ->].
  - rewrite (decode_output_key_lookup _ _ _ _ _ Ho2) by done.
    rewrite (decode_output_key_absent _ _ _ _ Hout Hnone) in Ho1.
    by simplify_eq.
  - rewrite (decode_output_key_absent _ _ _ _ Hout Hnone) in Ho2.
    simplify_eq.
    by rewrite (decode_output_key_lookup _ _ _ _ _ Ho1).
Qed.

Example unlabelled_origin_decodes :
  origin_of_metadata unlabelled_origin
  = Ok (mkContainer (PInt 30) (PInt 30), [], {[ "name" := PStr "o" ]}).
Proof. by vm_compute. Qed.

(** C6: [update_processed_data] on processed data whose output has a name
    and no label does not write a document without the label key: it stops
    with [KeyError('label')] after the image was saved. *)
Theorem update_without_label_raises :
  update_processed_data "/workspace" unlabelled_data origin_world
  = (Raise (KeyError "label"),
     mkWorld ∅ (journal (SaveObject ImageI 3)
                  (journal (GetObject ImageI (PInt 3)) origin_server))).
Proof. by vm_compute. Qed.

Lemma origin_metadata_Ok (processed_data : ProcessedData) (doc : pyval) :
  origin_metadata processed_data = Ok doc →
  is_Some (pd_output processed_data !! "name")
  ∧ is_Some (pd_output processed_data !! "label")
  ∧ has_path doc ["origin"; "output"; "name"] = true
  ∧ has_path doc ["origin"; "output"; "label"] = true.
Proof.
  unfold origin_metadata, output_item. intros H.
  apply bind_Ok in H as (run & _ & H).
  apply bind_Ok in H as (name & Hname & H).
  apply bind_Ok in H as (label & Hlabel & H).
  destruct (pd_output processed_data !! "name"); [|done].
  destruct (pd_output processed_data !! "label"); [|done].
  by simplify_eq.
Qed.

(** ** Paths *)

Lemma basename_no_slash (s : string) : has_slash s = false → basename s = s.
Proof. destruct s as [|c s]; [done|]. simpl. by intros ->. Qed.

Lemma has_slash_app_slash (a b : string) : has_slash (a +:+ "/" +:+ b) = true.
Proof.
  induction a as [|c a IH]; [done|].
  change (has_slash (String c (a +:+ "/" +:+ b)) = true).
  simpl. rewrite IH. apply orb_true_r.
Qed.

Lemma basename_app_slash (a b : string) :
  has_slash b = false → basename (a +:+ "/" +:+ b) = b.
Proof.
  intros Hb. induction a as [|c a IH].
  - change (basename (String "/" b) = b). simpl. by apply basename_no_slash.
  - change (basename (String c (a +:+ "/" +:+ b)) = b).
    cbn [basename].
    change (has_slash (String c (a +:+ "/" +:+ b)))
      with (Ascii.eqb c "/" || has_slash (a +:+ "/" +:+ b)).
    by rewrite has_slash_app_slash, orb_true_r.
Qed.

Lemma ends_with_slash (a : string) :
  ends_with "/" a = true → ∃ a', a = a' +:+ "/".
Proof.
  induction a as [|c a IH]; [done|].
  cbn [ends_with]. intros [H|H]%orb_true_iff.
  - apply String.eqb_eq in H as <-. by exists "".
  - destruct (IH H) as [a' ->]. by exists (String c a').
Qed.

Lemma string_app_assoc (a b c : string) : (a +:+ b) +:+ c = a +:+ b +:+ c.
Proof.
  induction a as [|x a IH]; [done|].
  change (String x ((a +:+ b) +:+ c) = String x (a +:+ b +:+ c)).
  by rewrite IH.
Qed.

Lemma path_join_relative (a b : string) :
  has_slash b = false →
  path_join a b
  = if String.eqb a "" || ends_with "/" a then a +:+ b else a +:+ "/" +:+ b.
Proof.
  destruct b as [|c b]; [done|]. intros Hb. unfold path_join.
  destruct c as [[] [] [] [] [] [] [] []]; try reflexivity.
  discriminate Hb.
Qed.

Lemma basename_path_join (a b : string) :
  has_slash b = false → basename (path_join a b) = b.
Proof.
  intros Hb. rewrite path_join_relative by done.
  destruct (String.eqb a "" || ends_with "/" a) eqn:Ha.
  - apply orb_true_iff in Ha as [->%String.eqb_eq|[a' ->]%ends_with_slash].
    + by apply basename_no_slash.
    + rewrite string_app_assoc. by apply basename_app_slash.
  - by apply basename_app_slash.
Qed.

(** ** Steps of the service *)

Lemma M_bind_Ok {A B : Type} (m : M A) (f : A → M B) (w w' : world) (b : B) :
  (m ≫= f) w = (Ok b, w') → ∃ a w1, m w = (Ok a, w1) ∧ f a w1 = (Ok b, w').
Proof.
  unfold mbind, M_bind. destruct (m w) as [[a|e] w1]; [eauto|done].
Qed.

Lemma getObject_eq (t : omero_type) (oid : pyval) (w : world) :
  getObject t oid w
  = (Ok (i ← as_id oid; o ← objects t (server w) !! i; Some (i, o)),
     mkWorld (files w) (journal (GetObject t oid) (server w))).
Proof. by destruct t. Qed.

Lemma listAnnotations_eq (t : omero_type) (oid : Z) (w : world) :
  listAnnotations t oid w
  = (Ok (match objects t (server w) !! oid with
         | Some o => o_annotations o
         | None => []
         end),
     mkWorld (files w) (journal (ListAnnotations t oid) (server w))).
Proof. by destruct t. Qed.

Lemma createFileAnnfromLocalFile_Ok (path : string) (w w' : world)
    (a : Z * annotation) :
  createFileAnnfromLocalFile path w = (Ok a, w') →
  ∃ content,
    files w !! path = Some content
    ∧ a = (next_id (server w), FileAnnotation (basename path) content)
    ∧ files w' = files w
    ∧ projects (server w') = projects (server w)
    ∧ datasets (server w') = datasets (server w)
    ∧ images (server w') = images (server w).
Proof.
  unfold createFileAnnfromLocalFile. unfold_M.
  destruct (files w !! path) as [content|]; [|done].
  intros [= <- <-]. by exists content.
Qed.

Lemma objects_set_objects (t : omero_type) (m : gmap Z omero_object)
    (s : omero) :
  objects t (set_objects t m s) = m.
Proof. by destruct t. Qed.

Lemma filter_origin_drop (anns : list (Z * annotation)) :
  filter (λ a, is_origin_attachment a = true)
    (filter (λ a, fst a ∉ map fst
                    (filter (λ a, is_origin_attachment a = true) anns)) anns)
  = [].
Proof.
  match goal with |- ?l = [] => destruct l as [|a rest] eqn:E end; [done|].
  assert (a ∈ a :: rest) as Ha by left. rewrite <-E in Ha.
  apply list_elem_of_filter in Ha as [Ha [Hnot Hin]%list_elem_of_filter].
  destruct Hnot. apply list_elem_of_In, in_map, list_elem_of_In.
  by apply list_elem_of_filter.
Qed.

Lemma save_name_eq (t : omero_type) (oid : Z) (name : string) (w : world) :
  save_name t oid name w
  = (Ok tt,
     mkWorld (files w)
       (set_objects t (alter (rename name) oid (objects t (server w)))
          (journal (SaveObject t oid) (server w)))).
Proof. by destruct t. Qed.

Lemma linkAnnotation_eq (t : omero_type) (oid : Z) (a : Z * annotation)
    (w : world) :
  linkAnnotation t oid a w
  = (Ok tt,
     mkWorld (files w)
       (set_objects t (alter (add_annotation a) oid (objects t (server w)))
          (journal (LinkAnnotation t oid (fst a)) (server w)))).
Proof. by destruct t. Qed.

Lemma deleteObjects_eq (ids : list Z) (w : world) :
  deleteObjects ids w
  = (Ok tt,
     mkWorld (files w)
       (mkOmero (drop_annotations ids <$> projects (server w))
                (drop_annotations ids <$> datasets (server w))
                (drop_annotations ids <$> images (server w))
                (next_id (server w)) (session_user (server w))
                (clock (server w))
                (calls (server w) ++ [DeleteObjects ids]))).
Proof. done. Qed.

Lemma write_json_file_Ok (doc : pyval) (path : string) (w w' : world) :
  update_files (_write_json doc (PStr path)) w = (Ok tt, w') →
  path ≠ "" ∧ w' = mkWorld (<[path := JsonFile doc]> (files w)) (server w).
Proof.
  unfold update_files, _write_json.
  destruct (decide (path = "")); [done|]. by intros [= <-].
Qed.

Lemma drop_annotations_nil (o : omero_object) : drop_annotations [] o = o.
Proof.
  destruct o as [n ow t p anns]. unfold drop_annotations. simpl. f_equal.
  induction anns as [|a anns IH]; [done|].
  rewrite filter_cons_True by set_solver. by rewrite IH.
Qed.

(** The deletion of [update_processed_data], run or skipped, leaves on each
    image the annotations whose identifier is not in [to_delete]. *)
Lemma delete_if_any_Ok (to_delete : list Z) (w w' : world) (u : unit) :
  match to_delete with
  | [] => mret tt
  | _ :: _ => deleteObjects to_delete
  end w = (Ok u, w') →
  files w' = files w
  ∧ next_id (server w') = next_id (server w)
  ∧ images (server w') = drop_annotations to_delete <$> images (server w).
Proof.
  destruct to_delete as [|i ids].
  - unfold mret, M_ret. intros [= _ <-]. split; [done|]. split; [done|].
    apply map_eq. intros i.
    rewrite lookup_fmap. destruct (images (server w) !! i); [|done].
    simpl. by rewrite drop_annotations_nil.
  - rewrite deleteObjects_eq. by intros [= _ <-].
Qed.

(** C10: after a successful [update_processed_data] the image carries
    exactly one file annotation named processed_data.md.json, the one just
    attached: those it carried before were deleted first. *)
Theorem one_origin_attachment_after_update (workspace : string)
    (processed_data : ProcessedData) (w w' : world) :
  update_processed_data workspace processed_data w = (Ok tt, w') →
  ∃ iid img img' doc,
    pd_md_uri processed_data = PInt iid
    ∧ images (server w) !! iid = Some img
    ∧ origin_metadata processed_data = Ok doc
    ∧ images (server w') !! iid = Some img'
    ∧ o_annotations img'
      = filter (λ a, fst a ∉ map fst
                       (filter (λ a, is_origin_attachment a = true)
                          (o_annotations img)))
          (o_annotations img)
        ++ [(next_id (server w),
             FileAnnotation "processed_data.md.json" (JsonFile doc))]
    ∧ filter (λ a, is_origin_attachment a = true) (o_annotations img')
      = [(next_id (server w),
          FileAnnotation "processed_data.md.json" (JsonFile doc))].
Proof.
  unfold update_processed_data. intros H.
  apply M_bind_Ok in H as (image & w1 & Hget & H).
  rewrite getObject_eq in Hget. injection Hget as <- <-.
  destruct (as_id (pd_md_uri processed_data)) as [iid|] eqn:Hid; [|done].
  apply as_id_Some in Hid. cbn [mbind option_bind objects] in H.
  destruct (images (server w) !! iid) as [img|] eqn:Himg; [|done].
  cbn [mbind option_bind] in H.
  apply M_bind_Ok in H as ([] & w2 & Hsave & H).
  apply M_bind_Ok in H as (doc & w3 & Hdoc & H).
  apply M_bind_Ok in H as ([] & w4 & Hwrite & H).
  apply M_bind_Ok in H as (anns & w5 & Hlist & H).
  apply M_bind_Ok in H as ([] & w6 & Hdel & H).
  apply M_bind_Ok in H as (file_ann & w7 & Hcreate & H).
  apply M_bind_Ok in H as ([] & w8 & Hlink & H).
  rewrite save_name_eq in Hsave. injection Hsave as <-.
  unfold lift in Hdoc. injection Hdoc as Hdoc <-.
  apply write_json_file_Ok in Hwrite as [Hpath ->].
  rewrite listAnnotations_eq in Hlist. injection Hlist as <- <-.
  simpl in Hdel. rewrite lookup_alter_eq, Himg in Hdel. simpl in Hdel.
  apply delete_if_any_Ok in Hdel as (Hfiles & Hnext & Himages).
  simpl in Hfiles, Hnext, Himages.
  apply createFileAnnfromLocalFile_Ok in Hcreate
    as (content & Hcontent & -> & _ & _ & _ & Himages7).
  rewrite Hfiles, lookup_insert_eq in Hcontent. injection Hcontent as <-.
  rewrite Hnext, basename_path_join in Hlink by done.
  rewrite linkAnnotation_eq in Hlink. injection Hlink as <-.
  unfold remove_if_exists in H. injection H as <-.
  simpl. rewrite Himages7, Himages.
  eexists iid, img, _, doc. repeat split; [done..| | |].
  - rewrite lookup_alter_eq, lookup_fmap, lookup_alter_eq, Himg. done.
  - done.
  - simpl. rewrite filter_app, filter_origin_drop. done.
Qed.

Lemma one_origin_attachment_after_update_witness :
  ∃ iid img img' doc,
    pd_md_uri labelled_data = PInt iid
    ∧ images (server origin_world) !! iid = Some img
    ∧ origin_metadata labelled_data = Ok doc
    ∧ images (server (snd (update_processed_data "/workspace" labelled_data
                             origin_world))) !! iid = Some img'
    ∧ o_annotations img'
      = filter (λ a, fst a ∉ map fst
                       (filter (λ a, is_origin_attachment a = true)
                          (o_annotations img)))
          (o_annotations img)
        ++ [(next_id (server origin_world),
             FileAnnotation "processed_data.md.json" (JsonFile doc))]
    ∧ filter (λ a, is_origin_attachment a = true) (o_annotations img')
      = [(next_id (server origin_world),
          FileAnnotation "processed_data.md.json" (JsonFile doc))].
Proof.
  apply (one_origin_attachment_after_update "/workspace" labelled_data
           origin_world).
  vm_compute. reflexivity.
Defined.

Example stale_attachments_replaced :
  (o_annotations <$>
     images (server (snd (update_processed_data "/workspace" labelled_data
                            origin_world))) !! 3)
  = match origin_metadata labelled_data with
    | Ok doc => Some [(21, TagAnnotation "blurred");
                      (23, FileAnnotation "processed_data.md.json"
                             (JsonFile doc))]
    | Raise _ => None
    end.
Proof. by vm_compute. Qed.

(** ** The identity of a run *)

(** Where [create_run] stands once the run document is written: the path
    is the workspace joined with the first free name, the run has no
    identity, the document is in the workspace and the server holds what it
    held. *)
Lemma create_run_prepare_Ok (workspace : string) (dataset : Dataset)
    (run_info prepared : Run) (did : Z) (path : string) (w w1 : world) :
  create_run_prepare workspace dataset run_info w
  = (Ok (did, path, prepared), w1) →
  ∃ ds doc,
    ds_md_uri dataset = PInt did
    ∧ datasets (server w) !! did = Some ds
    ∧ path = path_join workspace
               (run_md_file_name (file_annotation_names (o_annotations ds)))
    ∧ run_uuid prepared = PStr ""
    ∧ run_md_uri prepared = PStr path
    ∧ run_metadata prepared = Ok doc
    ∧ files w1 !! path = Some (JsonFile doc)
    ∧ datasets (server w1) = datasets (server w)
    ∧ next_id (server w1) = next_id (server w).
Proof.
  unfold create_run_prepare. intros H.
  apply M_bind_Ok in H as (omero_dataset & w0 & Hget & H).
  rewrite getObject_eq in Hget. injection Hget as <- <-.
  destruct (as_id (ds_md_uri dataset)) as [did'|] eqn:Hid; [|done].
  apply as_id_Some in Hid. cbn [mbind option_bind objects] in H.
  destruct (datasets (server w) !! did') as [ds|] eqn:Hds; [|done].
  cbn [mbind option_bind] in H.
  apply M_bind_Ok in H as (anns & w2 & Hlist & H).
  rewrite listAnnotations_eq in Hlist. injection Hlist as <- <-.
  apply M_bind_Ok in H as ([] & w3 & Hwrite & H).
  unfold mret, M_ret in H. injection H as <- <- <- <-.
  unfold update_files, _write_run in Hwrite. simpl in Hwrite.
  unfold_result. unfold _write_json in Hwrite.
  destruct (decide (_ = "")) as [|Hpath]; [done|]. injection Hwrite as <-.
  rewrite Hds. simpl. eexists ds, _.
  rewrite lookup_insert_eq. repeat split; done.
Qed.

(** C7: in every execution of [create_run] the run has the empty string as
    uuid (and the local path as md_uri) when its document is written and
    nothing is attached to the dataset yet; once the document is attached,
    uuid and md_uri are both the identifier of the file annotation that was
    created and linked to the dataset, and the uuid is no longer empty. *)
Theorem run_identity_after_attachment (workspace : string) (dataset : Dataset)
    (run_info run : Run) (w w' : world) :
  create_run workspace dataset run_info w = (Ok run, w') →
  ∃ did ds path prepared w1 doc ds',
    ds_md_uri dataset = PInt did
    ∧ datasets (server w) !! did = Some ds
    ∧ create_run_prepare workspace dataset run_info w
      = (Ok (did, path, prepared), w1)
    ∧ run_uuid prepared = PStr ""
    ∧ run_md_uri prepared = PStr path
    ∧ run_metadata prepared = Ok doc
    ∧ files w1 !! path = Some (JsonFile doc)
    ∧ datasets (server w1) = datasets (server w)
    ∧ run_uuid run = PInt (next_id (server w))
    ∧ run_md_uri run = PInt (next_id (server w))
    ∧ run_uuid run ≠ PStr ""
    ∧ datasets (server w') !! did = Some ds'
    ∧ o_annotations ds'
      = o_annotations ds
        ++ [(next_id (server w),
             FileAnnotation (basename path) (JsonFile doc))].
Proof.
  unfold create_run. intros H.
  apply M_bind_Ok in H as ([[did path] prepared] & w1 & Hprepare & H).
  destruct (create_run_prepare_Ok _ _ _ _ _ _ _ _ Hprepare)
    as (ds & doc & Hid & Hds & _ & Huuid & Huri & Hdoc & Hfile & Hsame & Hnext).
  simpl in H. unfold create_run_attach in H.
  apply M_bind_Ok in H as (file_ann & w4 & Hcreate & H).
  apply createFileAnnfromLocalFile_Ok in Hcreate
    as (content & Hcontent & -> & _ & _ & Hdatasets & _).
  rewrite Hfile in Hcontent. injection Hcontent as <-.
  apply M_bind_Ok in H as ([] & w5 & Hlink & H).
  rewrite linkAnnotation_eq in Hlink. injection Hlink as <-.
  apply M_bind_Ok in H as ([] & w6 & Hremove & H).
  unfold remove_if_exists in Hremove. injection Hremove as <-.
  unfold mret, M_ret in H. injection H as <- <-.
  simpl. rewrite Hdatasets, Hsame, Hnext.
  eexists did, ds, path, prepared, w1, doc, _.
  rewrite lookup_alter_eq, Hds. repeat split; done.
Qed.

Lemma run_identity_after_attachment_witness :
  ∃ did ds path prepared w1 doc ds',
    ds_md_uri process_dataset = PInt did
    ∧ datasets (server runs_world) !! did = Some ds
    ∧ create_run_prepare "/workspace" process_dataset sample_run runs_world
      = (Ok (did, path, prepared), w1)
    ∧ run_uuid prepared = PStr ""
    ∧ run_md_uri prepared = PStr path
    ∧ run_metadata prepared = Ok doc
    ∧ files w1 !! path = Some (JsonFile doc)
    ∧ datasets (server w1) = datasets (server runs_world)
    ∧ run_uuid created_run = PInt (next_id (server runs_world))
    ∧ run_md_uri created_run = PInt (next_id (server runs_world))
    ∧ run_uuid created_run ≠ PStr ""
    ∧ datasets (server (snd (create_run "/workspace" process_dataset
                               sample_run runs_world))) !! did = Some ds'
    ∧ o_annotations ds'
      = o_annotations ds
        ++ [(next_id (server runs_world),
             FileAnnotation (basename path) (JsonFile doc))].
Proof.
  apply (run_identity_after_attachment "/workspace" process_dataset
           sample_run created_run runs_world).
  vm_compute. reflexivity.
Defined.

(** The run document of a dataset that holds run.md.json and run_1.md.json
    is attached as run_2.md.json. *)
Example third_run_document :
  file_annotation_names
    (match datasets (server (snd (create_run "/workspace" process_dataset
                                    sample_run runs_world))) !! 2 with
     | Some ds => o_annotations ds
     | None => []
     end)
  = ["run.md.json"; "run_1.md.json"; "run_2.md.json"].
Proof. by vm_compute. Qed.

(** ** The builder *)

Lemma call_again (connect : string → Z → string → string → bool)
    (host : string) (port : Z) (username password : string)
    (st : python_state) (self : nat) :
  _instance st = Some self →
  __call__ connect host port username password st = (Ok self, st).
Proof. intros H. unfold __call__. by rewrite H. Qed.

Lemma call_Ok_instance (connect : string → Z → string → string → bool)
    (host : string) (port : Z) (username password : string)
    (st st' : python_state) (self : nat) :
  __call__ connect host port username password st = (Ok self, st') →
  _instance st' = Some self.
Proof.
  unfold __call__, OmeroMetadataService_init.
  destruct (_instance st) as [self'|] eqn:Hinst.
  - intros [= <- <-]. done.
  - destruct (connect host port username password); [|done].
    by intros [= <- <-].
Qed.

(** C9: once a call of the builder has returned a service, every later
    call returns that same object, whatever its arguments, and allocates
    nothing: the state of the builder and the heap stay as the first call
    left them. *)
Theorem builder_is_singleton (connect : string → Z → string → string → bool)
    (host : string) (port : Z) (username password : string)
    (st st' : python_state) (self : nat) :
  __call__ connect host port username password st = (Ok self, st') →
  ∀ later : list (string * Z * string * string),
    call_all connect later st' = (map (λ _, Ok self) later, st').
Proof.
  intros Hfirst%call_Ok_instance later.
  induction later as [|[[[h p] u] pw] later IH]; [done|].
  simpl. rewrite (call_again _ _ _ _ _ _ _ Hfirst), IH. done.
Qed.

Lemma builder_is_singleton_witness :
  call_all (λ _ _ _ _, true)
    [("other.example.org", 4063, "bob", "hunter2");
     ("omero.example.org", 4064, "alice", "secret")]
    (mkState {[ 0%nat := mkService "OmeroMetadataService" "omero.example.org"
                            4064 "alice" "secret" ]} 1 (Some 0%nat))
  = ([Ok 0%nat; Ok 0%nat],
     mkState {[ 0%nat := mkService "OmeroMetadataService" "omero.example.org"
                           4064 "alice" "secret" ]} 1 (Some 0%nat)).
Proof.
  apply (builder_is_singleton (λ _ _ _ _, true) "omero.example.org" 4064
           "alice" "secret" fresh_python _ 0%nat eq_refl
           [("other.example.org", 4063, "bob", "hunter2");
            ("omero.example.org", 4064, "alice", "secret")]).
Defined.

Example second_call_ignores_arguments :
  call_all (λ _ _ _ _, true)
    [("omero.example.org", 4064, "alice", "secret");
     ("other.example.org", 4063, "bob", "hunter2")] fresh_python
  = ([Ok 0%nat; Ok 0%nat],
     mkState {[ 0%nat := mkService "OmeroMetadataService" "omero.example.org"
                           4064 "alice" "secret" ]} 1 (Some 0%nat)).
Proof. by vm_compute. Qed.

(** * Further properties *)

(** ** What a successful [update_processed_data] leaves behind *)

Lemma delete_if_any_server (to_delete : list Z) (w w' : world) (u : unit) :
  match to_delete with
  | [] => mret tt
  | _ :: _ => deleteObjects to_delete
  end w = (Ok u, w') →
  files w' = files w
  ∧ next_id (server w') = next_id (server w)
  ∧ projects (server w') = drop_annotations to_delete <$> projects (server w)
  ∧ datasets (server w') = drop_annotations to_delete <$> datasets (server w)
  ∧ images (server w') = drop_annotations to_delete <$> images (server w).
Proof.
  assert (∀ m : gmap Z omero_object, m = drop_annotations [] <$> m) as Hnil.
  { intros m. apply map_eq. intros i. rewrite lookup_fmap.
    destruct (m !! i); [|done]. simpl. by rewrite drop_annotations_nil. }
  destruct to_delete as [|i ids].
  - unfold mret, M_ret. intros [= _ <-]. repeat split; by rewrite <-Hnil.
  - rewrite deleteObjects_eq. by intros [= _ <-].
Qed.

Lemma createFileAnnfromLocalFile_next (path : string) (w w' : world)
    (a : Z * annotation) :
  createFileAnnfromLocalFile path w = (Ok a, w') →
  next_id (server w') = next_id (server w) + 1.
Proof.
  unfold createFileAnnfromLocalFile. unfold_M.
  destruct (files w !! path) as [content|]; [|done].
  by intros [= <- <-].
Qed.

Lemma update_processed_data_Ok (workspace : string)
    (processed_data : ProcessedData) (w w' : world) :
  update_processed_data workspace processed_data w = (Ok tt, w') →
  ∃ iid img doc,
    pd_md_uri processed_data = PInt iid
    ∧ images (server w) !! iid = Some img
    ∧ origin_metadata processed_data = Ok doc
    ∧ files w' = delete (path_join workspace "processed_data.md.json") (files w)
    ∧ next_id (server w') = next_id (server w) + 1
    ∧ projects (server w')
      = drop_annotations (stale_origins img) <$> projects (server w)
    ∧ datasets (server w')
      = drop_annotations (stale_origins img) <$> datasets (server w)
    ∧ images (server w')
      = alter (add_annotation
                 (next_id (server w),
                  FileAnnotation "processed_data.md.json" (JsonFile doc))) iid
          (drop_annotations (stale_origins img)
             <$> alter (rename (pd_name processed_data)) iid
                   (images (server w))).
Proof.
  unfold update_processed_data. intros H.
  apply M_bind_Ok in H as (image & w1 & Hget & H).
  rewrite getObject_eq in Hget. injection Hget as <- <-.
  destruct (as_id (pd_md_uri processed_data)) as [iid|] eqn:Hid; [|done].
  apply as_id_Some in Hid. cbn [mbind option_bind objects] in H.
  destruct (images (server w) !! iid) as [img|] eqn:Himg; [|done].
  cbn [mbind option_bind] in H.
  apply M_bind_Ok in H as ([] & w2 & Hsave & H).
  apply M_bind_Ok in H as (doc & w3 & Hdoc & H).
  apply M_bind_Ok in H as ([] & w4 & Hwrite & H).
  apply M_bind_Ok in H as (anns & w5 & Hlist & H).
  apply M_bind_Ok in H as ([] & w6 & Hdel & H).
  apply M_bind_Ok in H as (file_ann & w7 & Hcreate & H).
  apply M_bind_Ok in H as ([] & w8 & Hlink & H).
  rewrite save_name_eq in Hsave. injection Hsave as <-.
  unfold lift in Hdoc. injection Hdoc as Hdoc <-.
  apply write_json_file_Ok in Hwrite as [Hpath ->].
  rewrite listAnnotations_eq in Hlist. injection Hlist as <- <-.
  simpl in Hdel. rewrite lookup_alter_eq, Himg in Hdel. simpl in Hdel.
  apply delete_if_any_server in Hdel
    as (Hfiles & Hnext & Hprojects & Hdatasets & Himages).
  simpl in Hfiles, Hnext, Hprojects, Hdatasets, Himages.
  pose proof (createFileAnnfromLocalFile_next _ _ _ _ Hcreate) as Hnext7.
  apply createFileAnnfromLocalFile_Ok in Hcreate
    as (content & Hcontent & -> & Hfiles7 & Hprojects7 & Hdatasets7 & Himages7).
  rewrite Hfiles, lookup_insert_eq in Hcontent. injection Hcontent as <-.
  rewrite Hnext, basename_path_join in Hlink by done.
  rewrite linkAnnotation_eq in Hlink. injection Hlink as <-.
  unfold remove_if_exists in H. injection H as <-.
  simpl. rewrite Hfiles7, Hfiles, Hnext7, Hnext, Hprojects7, Hprojects,
    Hdatasets7, Hdatasets, Himages7, Himages.
  exists iid, img, doc. rewrite delete_insert_eq. by repeat split.
Qed.

(** ** Reading processed data back *)

Lemma download_attachments_eq (destination_path : string) (found : bool)
    (anns : list (Z * annotation)) (w : world) :
  download_attachments destination_path found anns w
  = (Ok (found || existsb md_attachment anns),
     mkWorld (foldl (downloaded destination_path) (files w) anns) (server w)).
Proof.
  revert found w. induction anns as [|[aid ann] anns IH]; intros found w.
  - simpl. rewrite orb_false_r. by destruct w.
  - cbn [download_attachments]. unfold mbind, M_bind.
    unfold download_attachment, md_attachment, downloaded. cbn [snd foldl existsb].
    destruct ann as [v|v|name content]; cbn [fst snd].
    + unfold mret, M_ret. rewrite IH. by destruct w.
    + unfold mret, M_ret. rewrite IH. by destruct w.
    + destruct (ends_with ".md.json" name); unfold_M; simpl; rewrite IH; simpl.
      * by rewrite orb_true_r.
      * by destruct w.
Qed.

Lemma decode_encode_origin_input (i : ProcessedDataInputContainer) :
  decode_origin_input (encode_origin_input i) = Ok i.
Proof. by destruct i. Qed.

(** Decoding the document that [update_processed_data] builds gives back
    the run, the inputs and the two entries of the output. *)
Lemma origin_of_metadata_inverse (processed_data : ProcessedData)
    (doc : pyval) :
  origin_metadata processed_data = Ok doc →
  ∃ run name label,
    pd_run processed_data = Some run
    ∧ pd_output processed_data !! "name" = Some name
    ∧ pd_output processed_data !! "label" = Some label
    ∧ origin_of_metadata doc
      = Ok (run, pd_inputs processed_data,
            <["label" := label]> (<["name" := name]> ∅)).
Proof.
  unfold origin_metadata, output_item. intros H.
  destruct (pd_run processed_data) as [[url uuid]|]; [|done].
  destruct (pd_output processed_data !! "name") as [name|]; [|done].
  destruct (pd_output processed_data !! "label") as [label|]; [|done].
  unfold_result. simplify_eq. eexists _, name, label.
  repeat split. unfold origin_of_metadata. simpl. unfold_result. simpl.
  by rewrite (for_each_map_inverse _ _ _ decode_encode_origin_input).
Qed.

Lemma M_bind_unfold {A B : Type} (m : M A) (f : A → M B) (w : world) :
  (m ≫= f) w
  = match m w with
    | (Ok a, w') => f a w'
    | (Raise e, w') => (Raise e, w')
    end.
Proof. done. Qed.

Lemma _omero_download_image_md_attachments_eq (image : Z)
    (destination_path : string) (w : world) :
  _omero_download_image_md_attachments image destination_path w
  = let anns := match images (server w) !! image with
                | Some o => o_annotations o
                | None => []
                end in
    let s := journal (ListAnnotations ImageI image) (server w) in
    if existsb md_attachment anns
    then (Ok tt, mkWorld (foldl (downloaded destination_path) (files w) anns) s)
    else (Raise (DataServiceError "Cannot found the metadata file for image:"),
          mkWorld (foldl (downloaded destination_path) (files w) anns) s).
Proof.
  unfold _omero_download_image_md_attachments.
  rewrite M_bind_unfold, listAnnotations_eq.
  rewrite M_bind_unfold, download_attachments_eq. simpl.
  by destruct (existsb md_attachment _).
Qed.

(** [get_processed_data] on an image that exists, step by step. *)
Lemma get_processed_data_eq (workspace : string) (format_date : Z → string)
    (iid : Z) (img : omero_object) (w : world) :
  images (server w) !! iid = Some img →
  get_processed_data workspace format_date (PInt iid) w
  = let md_json_file := path_join workspace "processed_data.md.json" in
    let fs := foldl (downloaded workspace) (files w) (o_annotations img) in
    let s := journal (ListAnnotations ImageI iid)
               (journal (GetObject ImageI (PInt iid)) (server w)) in
    if existsb md_attachment (o_annotations img) then
      match _read_json fs md_json_file with
      | Raise e => (Raise e, mkWorld fs s)
      | Ok metadata =>
          match origin_of_metadata metadata with
          | Raise e => (Raise e, mkWorld fs s)
          | Ok origin =>
              (Ok (Some {| pd_md_uri := PInt iid; pd_uuid := PInt iid;
                           pd_uri := PInt iid; pd_name := o_name img;
                           pd_author := o_owner img;
                           pd_format := "imagetiff";
                           pd_date := format_date (o_time img);
                           pd_run := Some (fst (fst origin));
                           pd_inputs := snd (fst origin);
                           pd_output := snd origin |}),
               mkWorld (delete md_json_file fs) s)
          end
      end
    else (Raise (DataServiceError "Cannot found the metadata file for image:"),
          mkWorld fs s).
Proof.
  intros Himg. unfold get_processed_data.
  rewrite M_bind_unfold, getObject_eq.
  cbn [as_id mbind option_bind objects]. rewrite Himg.
  cbn [mbind option_bind].
  rewrite M_bind_unfold, _omero_download_image_md_attachments_eq.
  simpl. rewrite Himg.
  destruct (existsb md_attachment (o_annotations img)); [|done].
  unfold_M. simpl.
  destruct (_read_json _ _) as [metadata|e]; [|done].
  by destruct (origin_of_metadata metadata) as [origin|e].
Qed.

Lemma update_then_get (workspace : string) (format_date : Z → string)
    (processed_data : ProcessedData) (w w1 : world) :
  update_processed_data workspace processed_data w = (Ok tt, w1) →
  ∃ iid img run name label w2,
    pd_md_uri processed_data = PInt iid
    ∧ images (server w) !! iid = Some img
    ∧ pd_run processed_data = Some run
    ∧ pd_output processed_data !! "name" = Some name
    ∧ pd_output processed_data !! "label" = Some label
    ∧ get_processed_data workspace format_date (pd_md_uri processed_data) w1
      = (Ok (Some {| pd_md_uri := PInt iid; pd_uuid := PInt iid;
                     pd_uri := PInt iid; pd_name := pd_name processed_data;
                     pd_author := o_owner img; pd_format := "imagetiff";
                     pd_date := format_date (o_time img);
                     pd_run := Some run;
                     pd_inputs := pd_inputs processed_data;
                     pd_output := <["label" := label]> (<["name" := name]> ∅) |}),
         w2).
Proof.
  intros H. apply update_processed_data_Ok in H
    as (iid & img & doc & Hid & Himg & Hdoc & Hfiles & _ & _ & _ & Himages).
  destruct (origin_of_metadata_inverse _ _ Hdoc)
    as (run & name & label & Hrun & Hname & Hlabel & Horigin).
  assert (images (server w1) !! iid
          = Some (add_annotation
                    (next_id (server w),
                     FileAnnotation "processed_data.md.json" (JsonFile doc))
                    (drop_annotations (stale_origins img)
                       (rename (pd_name processed_data) img)))) as Himg1.
  { by rewrite Himages, lookup_alter_eq, lookup_fmap, lookup_alter_eq, Himg. }
  rewrite Hid, (get_processed_data_eq _ _ _ _ _ Himg1).
  cbn [add_annotation o_annotations o_name o_owner o_time].
  rewrite existsb_app, foldl_app. cbn [existsb foldl]. 
  change (md_attachment (_, FileAnnotation "processed_data.md.json" _))
    with true.
  rewrite orb_true_r. cbv zeta.
  change (downloaded workspace ?fs (_, FileAnnotation "processed_data.md.json" ?c))
    with (<[path_join workspace "processed_data.md.json" := c]> fs).
  unfold _read_json. rewrite lookup_insert_eq, Horigin.
  eexists iid, img, run, name, label, _. by repeat split.
Qed.

(** X1: what [update_processed_data] attached, [get_processed_data] reads
    back: the run, the inputs in their order, the name and the label of the
    output, under the name the image was given. *)
Theorem origin_round_trip (workspace : string) (format_date : Z → string)
    (processed_data : ProcessedData) (w w1 : world) :
  update_processed_data workspace processed_data w = (Ok tt, w1) →
  ∃ iid img run name label w2,
    pd_md_uri processed_data = PInt iid
    ∧ images (server w) !! iid = Some img
    ∧ pd_run processed_data = Some run
    ∧ pd_output processed_data !! "name" = Some name
    ∧ pd_output processed_data !! "label" = Some label
    ∧ get_processed_data workspace format_date (pd_md_uri processed_data) w1
      = (Ok (Some {| pd_md_uri := PInt iid; pd_uuid := PInt iid;
                     pd_uri := PInt iid; pd_name := pd_name processed_data;
                     pd_author := o_owner img; pd_format := "imagetiff";
                     pd_date := format_date (o_time img);
                     pd_run := Some run;
                     pd_inputs := pd_inputs processed_data;
                     pd_output := <["label" := label]> (<["name" := name]> ∅) |}),
         w2).
Proof. apply update_then_get. Qed.

Lemma origin_round_trip_witness :
  ∃ iid img run name label w2,
    pd_md_uri labelled_data = PInt iid
    ∧ images (server origin_world) !! iid = Some img
    ∧ pd_run labelled_data = Some run
    ∧ pd_output labelled_data !! "name" = Some name
    ∧ pd_output labelled_data !! "label" = Some label
    ∧ get_processed_data "/workspace" (λ _, "1970-01-01")
        (pd_md_uri labelled_data)
        (snd (update_processed_data "/workspace" labelled_data origin_world))
      = (Ok (Some {| pd_md_uri := PInt iid; pd_uuid := PInt iid;
                     pd_uri := PInt iid; pd_name := pd_name labelled_data;
                     pd_author := o_owner img; pd_format := "imagetiff";
                     pd_date := "1970-01-01";
                     pd_run := Some run;
                     pd_inputs := pd_inputs labelled_data;
                     pd_output := <["label" := label]> (<["name" := name]> ∅) |}),
         w2).
Proof.
  apply (origin_round_trip "/workspace" (λ _, "1970-01-01") labelled_data
           origin_world).
  vm_compute. reflexivity.
Defined.

(** ** Images without a metadata attachment *)

Lemma foldl_downloaded_none (destination_path : string)
    (anns : list (Z * annotation)) (fs : gmap string file_content) :
  existsb md_attachment anns = false →
  foldl (downloaded destination_path) fs anns = fs.
Proof.
  revert fs. induction anns as [|[aid ann] anns IH]; intros fs; [done|].
  cbn [existsb foldl]. intros [Hann Hrest]%orb_false_iff.
  rewrite IH by done. unfold downloaded, md_attachment in *. cbn [snd] in *.
  destruct ann; try done. by rewrite Hann.
Qed.

Lemma py_path_Raise (v : pyval) (ks : list string) (e : exn) :
  py_path v ks = Raise e → lookup_error e.
Proof.
  revert v. induction ks as [|k ks IH]; intros v; [done|].
  simpl. intros H. apply bind_Raise in H as [H|(x & _ & H)].
  - by eapply py_getitem_Raise.
  - by eapply IH.
Qed.

Lemma py_contains_Raise (k : string) (v : pyval) (e : exn) :
  py_contains k v = Raise e → lookup_error e.
Proof. unfold lookup_error. destruct v; simpl; intros [= <-]; by right. Qed.

Lemma decode_output_key_Raise (metadata : pyval) (key : string)
    (output : gmap string pyval) (e : exn) :
  decode_output_key metadata key output = Raise e → lookup_error e.
Proof.
  unfold decode_output_key. intros H.
  apply bind_Raise in H as [H|(out & _ & H)]; [by eapply py_path_Raise|].
  apply bind_Raise in H as [H|([] & _ & H)];
    [by eapply py_contains_Raise| |done].
  apply bind_Raise in H as [H|(x & _ & H)]; [by eapply py_path_Raise|done].
Qed.

Lemma decode_origin_input_Raise (v : pyval) (e : exn) :
  decode_origin_input v = Raise e → lookup_error e.
Proof. unfold decode_origin_input. intros H. split_bind H. done. Qed.

Lemma origin_of_metadata_Raise (metadata : pyval) (e : exn) :
  origin_of_metadata metadata = Raise e → lookup_error e.
Proof.
  unfold origin_of_metadata. intros H.
  apply bind_Raise in H as [H|(url & _ & H)]; [by eapply py_path_Raise|].
  apply bind_Raise in H as [H|(uuid & _ & H)]; [by eapply py_path_Raise|].
  apply bind_Raise in H as [H|(ins & _ & H)]; [by eapply py_path_Raise|].
  apply bind_Raise in H as [H|(items & _ & H)]; [by eapply py_iter_Raise|].
  apply bind_Raise in H as [H|(inputs & _ & H)].
  { apply for_each_Raise in H as (item & _ & Hitem).
    by eapply decode_origin_input_Raise. }
  apply bind_Raise in H as [H|(o1 & _ & H)];
    [by eapply decode_output_key_Raise|].
  apply bind_Raise in H as [H|(o2 & _ & H)];
    [by eapply decode_output_key_Raise|done].
Qed.

(** X2: for an image that exists, [get_processed_data] raises a
    DataServiceError exactly when the image carries no file annotation whose
    name ends in .md.json, and then it has written nothing to the
    workspace. *)
Theorem missing_attachment_error (workspace : string)
    (format_date : Z → string) (iid : Z) (img : omero_object) (w : world) :
  images (server w) !! iid = Some img →
  (existsb md_attachment (o_annotations img) = false
   ↔ ∃ msg w', get_processed_data workspace format_date (PInt iid) w
               = (Raise (DataServiceError msg), w'))
  ∧ (existsb md_attachment (o_annotations img) = false →
     files (snd (get_processed_data workspace format_date (PInt iid) w))
     = files w).
Proof.
  intros Himg. rewrite (get_processed_data_eq _ _ _ _ _ Himg). cbv zeta.
  destruct (existsb md_attachment (o_annotations img)) eqn:Hmd.
  - split; [|done]. split; [done|]. intros (msg & w' & H).
    destruct (_read_json _ _) as [metadata|e] eqn:Hread.
    + destruct (origin_of_metadata metadata) as [origin|e] eqn:Horigin;
        [done|].
      apply origin_of_metadata_Raise in Horigin.
      injection H as -> _. by destruct Horigin.
    + unfold _read_json in Hread. injection H as -> _.
      repeat case_match; simplify_eq.
  - split; [split; [eauto|done]|]. intros _. simpl.
    by apply foldl_downloaded_none.
Qed.

Lemma missing_attachment_error_witness :
  (existsb md_attachment
     (o_annotations (mkObject "cells.tif" "alice" 86400000 (Some 2)
                       [(12, MapAnnotation [("stain", "DAPI")])])) = false
   ↔ ∃ msg w', get_processed_data "/workspace" (λ _, "1970-01-02") (PInt 3)
                 stained_world
               = (Raise (DataServiceError msg), w'))
  ∧ (existsb md_attachment
       (o_annotations (mkObject "cells.tif" "alice" 86400000 (Some 2)
                         [(12, MapAnnotation [("stain", "DAPI")])])) = false →
     files (snd (get_processed_data "/workspace" (λ _, "1970-01-02") (PInt 3)
                   stained_world))
     = files stained_world).
Proof.
  apply (missing_attachment_error "/workspace" (λ _, "1970-01-02") 3
           (mkObject "cells.tif" "alice" 86400000 (Some 2)
              [(12, MapAnnotation [("stain", "DAPI")])]) stained_world).
  reflexivity.
Defined.

(** ** The workspace and the image after [update_processed_data] *)

(** X3: a successful [update_processed_data] leaves the workspace as it
    was but for the staging file processed_data.md.json, which is gone, and
    the server has handed out one identifier. *)
Theorem update_cleans_workspace (workspace : string)
    (processed_data : ProcessedData) (w w' : world) :
  update_processed_data workspace processed_data w = (Ok tt, w') →
  files w' = delete (path_join workspace "processed_data.md.json") (files w)
  ∧ next_id (server w') = next_id (server w) + 1.
Proof.
  intros H. apply update_processed_data_Ok in H
    as (iid & img & doc & _ & _ & _ & Hfiles & Hnext & _).
  done.
Qed.

Lemma update_cleans_workspace_witness :
  files (snd (update_processed_data "/workspace" labelled_data origin_world))
  = delete (path_join "/workspace" "processed_data.md.json")
      (files origin_world)
  ∧ next_id (server (snd (update_processed_data "/workspace" labelled_data
                            origin_world)))
    = next_id (server origin_world) + 1.
Proof.
  apply (update_cleans_workspace "/workspace" labelled_data origin_world).
  vm_compute. reflexivity.
Defined.

(** X4: when the origin cannot be encoded (no run, or an output without
    name or label), [update_processed_data] raises that error after the
    image was saved under its new name: the rename stays on the server,
    the annotations and the workspace are untouched. *)
Theorem failed_update_keeps_rename (workspace : string)
    (processed_data : ProcessedData) (iid : Z) (img : omero_object) (e : exn)
    (w : world) :
  pd_md_uri processed_data = PInt iid →
  images (server w) !! iid = Some img →
  origin_metadata processed_data = Raise e →
  ∃ w',
    update_processed_data workspace processed_data w = (Raise e, w')
    ∧ files w' = files w
    ∧ images (server w')
      = <[iid := rename (pd_name processed_data) img]> (images (server w))
    ∧ next_id (server w') = next_id (server w).
Proof.
  intros Hid Himg Hdoc. unfold update_processed_data.
  rewrite M_bind_unfold, getObject_eq, Hid.
  cbn [as_id mbind option_bind objects]. rewrite Himg.
  cbn [mbind option_bind].
  rewrite M_bind_unfold, save_name_eq.
  rewrite M_bind_unfold. unfold lift. rewrite Hdoc.
  eexists. split; [done|]. simpl. repeat split.
  apply map_eq. intros j. rewrite lookup_alter, lookup_insert.
  case_decide; [subst; by rewrite Himg|done].
Qed.

Lemma failed_update_keeps_rename_witness :
  ∃ w',
    update_processed_data "/workspace" unlabelled_data origin_world
    = (Raise (KeyError "label"), w')
    ∧ files w' = files origin_world
    ∧ images (server w')
      = <[3 := rename (pd_name unlabelled_data)
                 (mkObject "o.tif" "alice" 0 (Some 2)
                    [(20, FileAnnotation "processed_data.md.json"
                            (JsonFile (PDict [])));
                     (21, TagAnnotation "blurred");
                     (22, FileAnnotation "processed_data.md.json"
                            EmptyFile)])]>
          (images (server origin_world))
    ∧ next_id (server w') = next_id (server origin_world).
Proof.
  apply (failed_update_keeps_rename "/workspace" unlabelled_data 3).
  - reflexivity.
  - reflexivity.
  - reflexivity.
Defined.

(** ** Names of run documents on the server *)

Lemma has_slash_pretty_N_go (x : N) (s : string) :
  has_slash s = false → has_slash (pretty_N_go x s) = false.
Proof.
  revert s. induction (N.lt_wf_0 x) as [x _ IH]; intros s Hs.
  destruct (decide (x = 0)%N) as [->|Hx]; [by rewrite pretty_N_go_0|].
  rewrite pretty_N_go_step by lia. apply IH.
  - apply N.div_lt; lia.
  - cbn [has_slash]. rewrite Hs, orb_false_r.
    unfold pretty_N_char. by repeat case_match.
Qed.

Lemma has_slash_pretty_nat (n : nat) : has_slash (pretty n) = false.
Proof.
  unfold pretty, pretty_nat, pretty, pretty_N.
  case_decide; [done|]. by apply has_slash_pretty_N_go.
Qed.

Lemma has_slash_app (a b : string) :
  has_slash (a +:+ b) = has_slash a || has_slash b.
Proof.
  induction a as [|c a IH]; [done|].
  change (has_slash (String c (a +:+ b))
          = has_slash (String c a) || has_slash b).
  cbn [has_slash]. by rewrite IH, orb_assoc.
Qed.

Lemma has_slash_run_name_sequence (k : nat) :
  has_slash (run_name_sequence k) = false.
Proof.
  destruct k as [|k]; [done|]. unfold run_name_sequence.
  by rewrite !has_slash_app, has_slash_pretty_nat.
Qed.

Lemma ends_with_app (suffix a b : string) :
  ends_with suffix b = true → ends_with suffix (a +:+ b) = true.
Proof.
  intros Hb. induction a as [|c a IH]; [done|].
  change (ends_with suffix (String c (a +:+ b)) = true).
  cbn [ends_with]. rewrite IH. apply orb_true_r.
Qed.

Lemma run_name_sequence_ends_with (k : nat) :
  ends_with "md.json" (run_name_sequence k) = true.
Proof.
  destruct k as [|k]; [done|]. unfold run_name_sequence.
  by apply ends_with_app, ends_with_app.
Qed.

(** ** What a successful [create_run] leaves behind *)

Lemma run_md_file_name_spec (ann_files : list string) :
  ∃ k, run_md_file_name ann_files = run_name_sequence k
       ∧ (run_name_sequence k ∉ ann_files)
       ∧ (∀ j, (j < k)%nat → run_name_sequence j ∈ ann_files).
Proof.
  unfold run_md_file_name.
  apply (free_run_name_spec (S (length ann_files)) ann_files 0); [|lia].
  intros j Hj. lia.
Qed.

Lemma create_run_prepare_full (workspace : string) (dataset : Dataset)
    (run_info prepared : Run) (did : Z) (path : string) (w w1 : world) :
  create_run_prepare workspace dataset run_info w
  = (Ok (did, path, prepared), w1) →
  ∃ ds doc,
    ds_md_uri dataset = PInt did
    ∧ datasets (server w) !! did = Some ds
    ∧ path = path_join workspace
               (run_md_file_name (file_annotation_names (o_annotations ds)))
    ∧ prepared = {| run_md_uri := PStr path; run_uuid := PStr "";
                    process_name := process_name run_info;
                    process_uri := process_uri run_info;
                    processed_dataset := Some (container_of_dataset dataset);
                    inputs := inputs run_info;
                    parameters := parameters run_info |}
    ∧ run_metadata prepared = Ok doc
    ∧ files w1 = <[path := JsonFile doc]> (files w)
    ∧ projects (server w1) = projects (server w)
    ∧ datasets (server w1) = datasets (server w)
    ∧ images (server w1) = images (server w)
    ∧ next_id (server w1) = next_id (server w).
Proof.
  unfold create_run_prepare. intros H.
  apply M_bind_Ok in H as (omero_dataset & w0 & Hget & H).
  rewrite getObject_eq in Hget. injection Hget as <- <-.
  destruct (as_id (ds_md_uri dataset)) as [did'|] eqn:Hid; [|done].
  apply as_id_Some in Hid. cbn [mbind option_bind objects] in H.
  destruct (datasets (server w) !! did') as [ds|] eqn:Hds; [|done].
  cbn [mbind option_bind] in H.
  apply M_bind_Ok in H as (anns & w2 & Hlist & H).
  rewrite listAnnotations_eq in Hlist. injection Hlist as <- <-.
  apply M_bind_Ok in H as ([] & w3 & Hwrite & H).
  unfold mret, M_ret in H. injection H as <- <- <- <-.
  unfold update_files, _write_run in Hwrite. simpl in Hwrite.
  unfold_result. unfold _write_json in Hwrite.
  destruct (decide (_ = "")) as [|Hpath]; [done|]. injection Hwrite as <-.
  rewrite Hds. simpl. eexists ds, _. repeat split; done.
Qed.

Lemma create_run_Ok (workspace : string) (dataset : Dataset)
    (run_info run : Run) (w w' : world) :
  create_run workspace dataset run_info w = (Ok run, w') →
  ∃ did ds k doc,
    ds_md_uri dataset = PInt did
    ∧ datasets (server w) !! did = Some ds
    ∧ run_md_file_name (file_annotation_names (o_annotations ds))
      = run_name_sequence k
    ∧ (run_name_sequence k ∉ file_annotation_names (o_annotations ds))
    ∧ (∀ j, (j < k)%nat →
         run_name_sequence j ∈ file_annotation_names (o_annotations ds))
    ∧ run_metadata
        {| run_md_uri := PStr (path_join workspace (run_name_sequence k));
           run_uuid := PStr "";
           process_name := process_name run_info;
           process_uri := process_uri run_info;
           processed_dataset := Some (container_of_dataset dataset);
           inputs := inputs run_info;
           parameters := parameters run_info |} = Ok doc
    ∧ run = {| run_md_uri := PInt (next_id (server w));
               run_uuid := PInt (next_id (server w));
               process_name := process_name run_info;
               process_uri := process_uri run_info;
               processed_dataset := Some (container_of_dataset dataset);
               inputs := inputs run_info;
               parameters := parameters run_info |}
    ∧ files w'
      = delete (path_join workspace (run_name_sequence k)) (files w)
    ∧ next_id (server w') = next_id (server w) + 1
    ∧ projects (server w') = projects (server w)
    ∧ images (server w') = images (server w)
    ∧ datasets (server w')
      = <[did := add_annotation
                   (next_id (server w),
                    FileAnnotation (run_name_sequence k) (JsonFile doc)) ds]>
          (datasets (server w)).
Proof.
  unfold create_run. intros H.
  apply M_bind_Ok in H as ([[did path] prepared] & w1 & Hprepare & H).
  apply create_run_prepare_full in Hprepare
    as (ds & doc & Hid & Hds & Hpath & Hprepared & Hdoc & Hfiles & Hprojects
        & Hdatasets & Himages & Hnext).
  destruct (run_md_file_name_spec (file_annotation_names (o_annotations ds)))
    as (k & Hk & Hfree & Hbelow).
  rewrite Hk in Hpath.
  simpl in H. unfold create_run_attach in H.
  apply M_bind_Ok in H as (file_ann & w4 & Hcreate & H).
  pose proof (createFileAnnfromLocalFile_next _ _ _ _ Hcreate) as Hnext4.
  apply createFileAnnfromLocalFile_Ok in Hcreate
    as (content & Hcontent & -> & Hfiles4 & Hprojects4 & Hdatasets4 & Himages4).
  rewrite Hfiles, lookup_insert_eq in Hcontent. injection Hcontent as <-.
  apply M_bind_Ok in H as ([] & w5 & Hlink & H).
  rewrite linkAnnotation_eq in Hlink. injection Hlink as <-.
  apply M_bind_Ok in H as ([] & w6 & Hremove & H).
  unfold remove_if_exists in Hremove. injection Hremove as <-.
  unfold mret, M_ret in H. injection H as <- <-.
  simpl. rewrite Hfiles4, Hfiles, Hnext4, Hnext, Hprojects4, Hprojects,
    Himages4, Himages, Hdatasets4, Hdatasets.
  subst path prepared. simpl.
  rewrite basename_path_join by apply has_slash_run_name_sequence.
  exists did, ds, k, doc. rewrite delete_insert_eq.
  repeat split; try done.
  apply map_eq. intros j. rewrite lookup_alter, lookup_insert.
  case_decide; [subst; by rewrite Hds|done].
Qed.

Lemma elem_of_file_annotation_names (name : string)
    (anns : list (Z * annotation)) :
  name ∈ file_annotation_names anns
  ↔ ∃ aid content, (aid, FileAnnotation name content) ∈ anns.
Proof.
  unfold file_annotation_names. rewrite list_elem_of_omap. split.
  - intros ([aid ann] & Hin & Hname). cbn [snd] in Hname.
    destruct ann as [v|v|name' content]; try done.
    injection Hname as ->. by exists aid, content.
  - intros (aid & content & Hin). by exists (aid, FileAnnotation name content).
Qed.

Lemma run_document_path_not_empty (workspace : string) (k : nat) :
  path_join workspace (run_name_sequence k) ≠ "".
Proof.
  intros Hpath.
  pose proof (basename_path_join workspace (run_name_sequence k)
                (has_slash_run_name_sequence k)) as Hbase.
  rewrite Hpath in Hbase. by destruct k.
Qed.

Lemma create_run_returns (workspace : string) (dataset : Dataset)
    (run_info : Run) (did : Z) (ds : omero_object) (w : world) :
  ds_md_uri dataset = PInt did →
  datasets (server w) !! did = Some ds →
  ∃ run w', create_run workspace dataset run_info w = (Ok run, w').
Proof.
  intros Hid Hds.
  destruct (run_md_file_name_spec (file_annotation_names (o_annotations ds)))
    as (k & Hk & _).
  unfold create_run, create_run_prepare.
  rewrite !M_bind_unfold, getObject_eq, Hid.
  cbn [as_id mbind option_bind objects]. rewrite Hds.
  cbn [mbind option_bind].
  rewrite M_bind_unfold, listAnnotations_eq. cbn [objects server].
  change (datasets (journal _ (server w))) with (datasets (server w)).
  rewrite Hds, Hk, M_bind_unfold.
  unfold update_files, _write_run, run_metadata, _write_json.
  cbn [processed_dataset run_md_uri files]. unfold_result.
  destruct (decide (path_join workspace (run_name_sequence k) = ""))
    as [Hpath|_]; [by apply run_document_path_not_empty in Hpath|].
  unfold M_ret at 1. cbn [fst snd].
  unfold create_run_attach, createFileAnnfromLocalFile.
  rewrite !M_bind_unfold. unfold with_files at 1. cbn [files].
  rewrite lookup_insert_eq. unfold_M. simpl. by eexists _, _.
Qed.

(** C3: on a dataset that exists [create_run] returns, and the run document
    it attaches to the dataset bears the first name of the sequence
    run.md.json, run_1.md.json, run_2.md.json, ... that no file attached to
    the dataset bore: no file annotation of the dataset has that name, and
    every earlier name of the sequence is the name of one. The name depends
    on nothing but the names of the files attached. *)
Theorem run_name_is_first_free (workspace : string) (dataset : Dataset)
    (run_info : Run) (did : Z) (ds : omero_object) (w : world) :
  ds_md_uri dataset = PInt did →
  datasets (server w) !! did = Some ds →
  ∃ k doc run w' ds',
    create_run workspace dataset run_info w = (Ok run, w')
    ∧ datasets (server w') !! did = Some ds'
    ∧ o_annotations ds'
      = o_annotations ds
        ++ [(next_id (server w),
             FileAnnotation (run_name_sequence k) (JsonFile doc))]
    ∧ (∀ aid content,
         (aid, FileAnnotation (run_name_sequence k) content)
         ∉ o_annotations ds)
    ∧ (∀ j, (j < k)%nat →
         ∃ aid content,
           (aid, FileAnnotation (run_name_sequence j) content)
           ∈ o_annotations ds).
Proof.
  intros Hid Hds.
  destruct (create_run_returns workspace dataset run_info did ds w Hid Hds)
    as (run & w' & Hrun).
  destruct (create_run_Ok _ _ _ _ _ _ Hrun)
    as (did' & ds0 & k & doc & Hid' & Hds' & _ & Hfree & Hbelow & _ & _ & _
        & _ & _ & _ & Hdatasets).
  rewrite Hid in Hid'. injection Hid' as <-.
  rewrite Hds in Hds'. injection Hds' as <-.
  exists k, doc, run, w', 
    (add_annotation
       (next_id (server w), FileAnnotation (run_name_sequence k) (JsonFile doc))
       ds).
  rewrite Hdatasets, lookup_insert_eq. split_and!; try done.
  - intros aid content Hin. apply Hfree, elem_of_file_annotation_names.
    by exists aid, content.
  - intros j Hj. by apply elem_of_file_annotation_names, Hbelow.
Qed.

Lemma run_name_is_first_free_witness :
  ∃ k doc run w' ds',
    create_run "/workspace" process_dataset sample_run runs_world
    = (Ok run, w')
    ∧ datasets (server w') !! 2 = Some ds'
    ∧ o_annotations ds'
      = [(40, FileAnnotation "run.md.json" EmptyFile);
         (41, TagAnnotation "run_2.md.json");
         (42, FileAnnotation "run_1.md.json" EmptyFile)]
        ++ [(next_id (server runs_world),
             FileAnnotation (run_name_sequence k) (JsonFile doc))]
    ∧ (∀ aid content,
         (aid, FileAnnotation (run_name_sequence k) content)
         ∉ [(40, FileAnnotation "run.md.json" EmptyFile);
            (41, TagAnnotation "run_2.md.json");
            (42, FileAnnotation "run_1.md.json" EmptyFile)])
    ∧ (∀ j, (j < k)%nat →
         ∃ aid content,
           (aid, FileAnnotation (run_name_sequence j) content)
           ∈ [(40, FileAnnotation "run.md.json" EmptyFile);
              (41, TagAnnotation "run_2.md.json");
              (42, FileAnnotation "run_1.md.json" EmptyFile)]).
Proof.
  apply (run_name_is_first_free "/workspace" process_dataset sample_run 2
           (mkObject "process" "alice" 0 (Some 1)
              [(40, FileAnnotation "run.md.json" EmptyFile);
               (41, TagAnnotation "run_2.md.json");
               (42, FileAnnotation "run_1.md.json" EmptyFile)])
           runs_world).
  - reflexivity.
  - reflexivity.
Defined.

Lemma file_annotation_names_app (l1 l2 : list (Z * annotation)) :
  file_annotation_names (l1 ++ l2)
  = file_annotation_names l1 ++ file_annotation_names l2.
Proof. unfold file_annotation_names. apply omap_app. Qed.

(** X5: the run document that [create_run] attaches bears the first name
    of run.md.json, run_1.md.json, ... that no file annotation of the
    dataset bore, so the names of the file annotations of a dataset stay
    pairwise distinct. *)
Theorem create_run_attaches_fresh_name (workspace : string)
    (dataset : Dataset) (run_info run : Run) (w w' : world) :
  create_run workspace dataset run_info w = (Ok run, w') →
  ∃ did ds ds' k,
    ds_md_uri dataset = PInt did
    ∧ datasets (server w) !! did = Some ds
    ∧ datasets (server w') !! did = Some ds'
    ∧ file_annotation_names (o_annotations ds')
      = file_annotation_names (o_annotations ds) ++ [run_name_sequence k]
    ∧ (run_name_sequence k ∉ file_annotation_names (o_annotations ds))
    ∧ (∀ j, (j < k)%nat →
         run_name_sequence j ∈ file_annotation_names (o_annotations ds))
    ∧ (NoDup (file_annotation_names (o_annotations ds)) →
       NoDup (file_annotation_names (o_annotations ds'))).
Proof.
  intros H. apply create_run_Ok in H
    as (did & ds & k & doc & Hid & Hds & _ & Hfree & Hbelow & _ & _ & _ & _
        & _ & _ & Hdatasets).
  exists did, ds,
    (add_annotation
       (next_id (server w), FileAnnotation (run_name_sequence k) (JsonFile doc))
       ds), k.
  rewrite Hdatasets, lookup_insert_eq.
  cbn [add_annotation o_annotations]. rewrite file_annotation_names_app.
  repeat split; try done.
  intros Hnodup. apply NoDup_app. repeat split; [done| |apply NoDup_singleton].
  intros x Hx ->%list_elem_of_singleton. done.
Qed.

Lemma create_run_attaches_fresh_name_witness :
  ∃ did ds ds' k,
    ds_md_uri process_dataset = PInt did
    ∧ datasets (server runs_world) !! did = Some ds
    ∧ datasets (server (snd (create_run "/workspace" process_dataset
                               sample_run runs_world))) !! did = Some ds'
    ∧ file_annotation_names (o_annotations ds')
      = file_annotation_names (o_annotations ds) ++ [run_name_sequence k]
    ∧ (run_name_sequence k ∉ file_annotation_names (o_annotations ds))
    ∧ (∀ j, (j < k)%nat →
         run_name_sequence j ∈ file_annotation_names (o_annotations ds))
    ∧ (NoDup (file_annotation_names (o_annotations ds)) →
       NoDup (file_annotation_names (o_annotations ds'))).
Proof.
  apply (create_run_attaches_fresh_name "/workspace" process_dataset
           sample_run created_run runs_world).
  vm_compute. reflexivity.
Defined.

(** X6: a successful [create_run] changes nothing on the server but the
    dataset it was given, which keeps its name, owner, time, parent and
    annotations and gains one file annotation holding the run document;
    one identifier is used, and of the workspace only the staging file is
    touched: it is absent afterwards. *)
Theorem create_run_touches_one_dataset (workspace : string)
    (dataset : Dataset) (run_info run : Run) (w w' : world) :
  create_run workspace dataset run_info w = (Ok run, w') →
  ∃ did ds k doc,
    ds_md_uri dataset = PInt did
    ∧ datasets (server w) !! did = Some ds
    ∧ projects (server w') = projects (server w)
    ∧ images (server w') = images (server w)
    ∧ (∀ j, j ≠ did → datasets (server w') !! j = datasets (server w) !! j)
    ∧ datasets (server w') !! did
      = Some (mkObject (o_name ds) (o_owner ds) (o_time ds) (o_parent ds)
                (o_annotations ds
                 ++ [(next_id (server w),
                      FileAnnotation (run_name_sequence k) (JsonFile doc))]))
    ∧ py_getitem doc "uuid" = Ok (PStr "")
    ∧ next_id (server w') = next_id (server w) + 1
    ∧ files w' = delete (path_join workspace (run_name_sequence k)) (files w).
Proof.
  intros H. apply create_run_Ok in H
    as (did & ds & k & doc & Hid & Hds & _ & _ & _ & Hdoc & _ & Hfiles & Hnext
        & Hprojects & Himages & Hdatasets).
  exists did, ds, k, doc. rewrite Hdatasets.
  repeat split; try done.
  - intros j Hj. by rewrite lookup_insert_ne.
  - by rewrite lookup_insert_eq.
  - unfold run_metadata in Hdoc. simpl in Hdoc. by simplify_eq.
Qed.

Lemma create_run_touches_one_dataset_witness :
  ∃ did ds k doc,
    ds_md_uri process_dataset = PInt did
    ∧ datasets (server runs_world) !! did = Some ds
    ∧ projects (server (snd (create_run "/workspace" process_dataset
                               sample_run runs_world)))
      = projects (server runs_world)
    ∧ images (server (snd (create_run "/workspace" process_dataset
                             sample_run runs_world)))
      = images (server runs_world)
    ∧ (∀ j, j ≠ did →
         datasets (server (snd (create_run "/workspace" process_dataset
                                  sample_run runs_world))) !! j
         = datasets (server runs_world) !! j)
    ∧ datasets (server (snd (create_run "/workspace" process_dataset
                               sample_run runs_world))) !! did
      = Some (mkObject (o_name ds) (o_owner ds) (o_time ds) (o_parent ds)
                (o_annotations ds
                 ++ [(next_id (server runs_world),
                      FileAnnotation (run_name_sequence k) (JsonFile doc))]))
    ∧ py_getitem doc "uuid" = Ok (PStr "")
    ∧ next_id (server (snd (create_run "/workspace" process_dataset
                              sample_run runs_world)))
      = next_id (server runs_world) + 1
    ∧ files (snd (create_run "/workspace" process_dataset sample_run
                    runs_world))
      = delete (path_join "/workspace" (run_name_sequence k))
          (files runs_world).
Proof.
  apply (create_run_touches_one_dataset "/workspace" process_dataset
           sample_run created_run runs_world).
  vm_compute. reflexivity.
Defined.

(** ** The runs of a dataset *)

Lemma download_run_result (workspace : string) (ann : Z * annotation)
    (w1 w2 : world) :
  fst (download_run workspace ann w1) = fst (download_run workspace ann w2).
Proof.
  unfold download_run. destruct (snd ann) as [v|v|name content]; try done.
  destruct (ends_with "md.json" name); [|done].
  unfold_M. simpl. unfold _parse_run, _read_json.
  rewrite !lookup_insert_eq. by repeat case_match.
Qed.

Lemma download_runs_result (workspace : string)
    (anns : list (Z * annotation)) (w1 w2 : world) :
  fst (download_runs workspace anns w1) = fst (download_runs workspace anns w2).
Proof.
  revert w1 w2. induction anns as [|ann anns IH]; intros w1 w2; [done|].
  cbn [download_runs]. rewrite !M_bind_unfold.
  pose proof (download_run_result workspace ann w1 w2) as Hann.
  destruct (download_run workspace ann w1) as [[r1|e1] w1'],
    (download_run workspace ann w2) as [[r2|e2] w2']; simplify_eq/=; [|done].
  rewrite !M_bind_unfold. specialize (IH w1' w2').
  destruct (download_runs workspace anns w1') as [[rs1|e1] w1''],
    (download_runs workspace anns w2') as [[rs2|e2] w2'']; by simplify_eq/=.
Qed.

Lemma download_runs_snoc (workspace : string) (anns : list (Z * annotation))
    (ann : Z * annotation) (runs : list Run) (run : Run) (w w1 : world) :
  download_runs workspace anns w = (Ok runs, w1) →
  fst (download_run workspace ann w1) = Ok (Some run) →
  fst (download_runs workspace (anns ++ [ann]) w) = Ok (runs ++ [run]).
Proof.
  revert runs w. induction anns as [|a anns IH]; intros runs w Hruns Hrun.
  - unfold download_runs, mret, M_ret in Hruns. simplify_eq.
    cbn [app download_runs]. rewrite M_bind_unfold.
    destruct (download_run workspace ann w1) as [[r|e] w2]; by simplify_eq/=.
  - cbn [app download_runs] in *. rewrite M_bind_unfold in *.
    destruct (download_run workspace a w) as [[r|e] w2]; [|done].
    rewrite M_bind_unfold in *.
    destruct (download_runs workspace anns w2) as [[rs|e] w3] eqn:Hrest;
      [|done].
    unfold mret, M_ret in Hruns. injection Hruns as <- <-.
    specialize (IH rs w2 Hrest Hrun).
    destruct (download_runs workspace (anns ++ [ann]) w2) as [[rs'|e] w4];
      simplify_eq/=.
    by destruct r.
Qed.

Lemma get_dataset_runs_eq (workspace : string) (dataset : Dataset) (did : Z)
    (ds : omero_object) (w : world) :
  ds_md_uri dataset = PInt did →
  datasets (server w) !! did = Some ds →
  get_dataset_runs workspace dataset w
  = download_runs workspace (o_annotations ds)
      (mkWorld (files w)
         (journal (ListAnnotations DatasetI did)
            (journal (GetObject DatasetI (PInt did)) (server w)))).
Proof.
  intros Hid Hds. unfold get_dataset_runs.
  rewrite M_bind_unfold, getObject_eq, Hid.
  cbn [as_id mbind option_bind objects]. rewrite Hds.
  cbn [mbind option_bind].
  rewrite M_bind_unfold, listAnnotations_eq. simpl. by rewrite Hds.
Qed.

(** X7: after a successful [create_run] on a dataset, [get_dataset_runs]
    returns the runs it returned before followed by the new run as its
    document records it: with the process, the dataset, the inputs and the
    parameters it was created with, an empty uuid and the path of the
    downloaded document as md_uri. *)
Theorem created_run_is_listed (workspace : string) (dataset : Dataset)
    (run_info run : Run) (runs : list Run) (w w0 w1 : world) :
  get_dataset_runs workspace dataset w = (Ok runs, w0) →
  create_run workspace dataset run_info w = (Ok run, w1) →
  ∃ k,
    fst (get_dataset_runs workspace dataset w1)
    = Ok (runs
          ++ [{| run_md_uri :=
                   PStr (path_join workspace (run_name_sequence k));
                 run_uuid := PStr "";
                 process_name := process_name run_info;
                 process_uri := process_uri run_info;
                 processed_dataset := Some (container_of_dataset dataset);
                 inputs := inputs run_info;
                 parameters := parameters run_info |}]).
Proof.
  intros Hbefore Hcreate. apply create_run_Ok in Hcreate
    as (did & ds & k & doc & Hid & Hds & _ & _ & _ & Hdoc & _ & _ & _ & _ & _
        & Hdatasets).
  exists k.
  rewrite (get_dataset_runs_eq _ _ _ _ _ Hid Hds) in Hbefore.
  assert (datasets (server w1) !! did
          = Some (add_annotation
                    (next_id (server w),
                     FileAnnotation (run_name_sequence k) (JsonFile doc)) ds))
    as Hds1 by (by rewrite Hdatasets, lookup_insert_eq).
  rewrite (get_dataset_runs_eq _ _ _ _ _ Hid Hds1).
  cbn [add_annotation o_annotations].
  match goal with
  | |- fst (download_runs _ _ ?wb) = _ =>
      pose proof (download_runs_result workspace (o_annotations ds) wb
                    (mkWorld (files w)
                       (journal (ListAnnotations DatasetI did)
                          (journal (GetObject DatasetI (PInt did))
                             (server w))))) as Hsame;
      destruct (download_runs workspace (o_annotations ds) wb)
        as [r wc] eqn:Hagain
  end.
  rewrite Hbefore in Hsame. simpl in Hsame. subst r.
  apply (download_runs_snoc _ _ _ _ _ _ _ Hagain).
  unfold download_run. cbn [snd].
  rewrite run_name_sequence_ends_with. unfold_M. simpl.
  unfold _parse_run, _read_json. rewrite lookup_insert_eq. unfold_result.
  eapply run_of_metadata_inverse in Hdoc; [|reflexivity].
  by rewrite Hdoc.
Qed.

Lemma created_run_is_listed_witness :
  ∃ k,
    fst (get_dataset_runs "/workspace" process_dataset
           (snd (create_run "/workspace" process_dataset sample_run
                   new_dataset_world)))
    = Ok ([]
          ++ [{| run_md_uri :=
                   PStr (path_join "/workspace" (run_name_sequence k));
                 run_uuid := PStr "";
                 process_name := process_name sample_run;
                 process_uri := process_uri sample_run;
                 processed_dataset :=
                   Some (container_of_dataset process_dataset);
                 inputs := inputs sample_run;
                 parameters := parameters sample_run |}]).
Proof.
  apply (created_run_is_listed "/workspace" process_dataset sample_run
           created_run [] new_dataset_world
           (snd (get_dataset_runs "/workspace" process_dataset
                   new_dataset_world))).
  - vm_compute. reflexivity.
  - vm_compute. reflexivity.
Defined.

(** ** Datasets *)

Lemma rename_same (o : omero_object) : rename (o_name o) o = o.
Proof. by destruct o. Qed.

Lemma alter_rename_same (m : gmap Z omero_object) (i : Z) (o : omero_object) :
  m !! i = Some o → alter (rename (o_name o)) i m = m.
Proof.
  intros Hi. apply map_eq. intros j. rewrite lookup_alter.
  case_decide; [|done]. subst. rewrite Hi. simpl. by rewrite rename_same.
Qed.

(** X8: [update_dataset] never writes the name of the container it is
    given: whatever that container holds, the projects, datasets and images
    of the server and the workspace are afterwards what they were. *)
Theorem update_dataset_changes_nothing (dataset : Dataset) (w : world) :
  files (snd (update_dataset dataset w)) = files w
  ∧ projects (server (snd (update_dataset dataset w))) = projects (server w)
  ∧ datasets (server (snd (update_dataset dataset w))) = datasets (server w)
  ∧ images (server (snd (update_dataset dataset w))) = images (server w)
  ∧ next_id (server (snd (update_dataset dataset w))) = next_id (server w).
Proof.
  unfold update_dataset. rewrite M_bind_unfold, getObject_eq.
  destruct (as_id (ds_md_uri dataset)) as [did|]; [|done].
  cbn [mbind option_bind objects].
  destruct (datasets (server w) !! did) as [o|] eqn:Hds; [|done].
  cbn [mbind option_bind]. rewrite save_name_eq. simpl.
  by rewrite (alter_rename_same _ _ _ Hds).
Qed.

Example update_dataset_keeps_old_name :
  datasets (server (snd (update_dataset
                           (mkDataset (PInt 2) (PInt 2) "renamed" [])
                           new_dataset_world))) !! 2
  = Some (mkObject "process" "alice" 0 (Some 1)
            [(41, TagAnnotation "run.md.json")]).
Proof. by vm_compute. Qed.

Lemma children_of_none (parent : Z) (m : gmap Z omero_object) :
  (∀ i o, m !! i = Some o → o_parent o ≠ Some parent) →
  children_of parent m = [].
Proof.
  intros Hnone. unfold children_of.
  destruct (filter _ (map_to_list m)) as [|[i o] rest] eqn:E; [done|].
  assert ((i, o) ∈ (i, o) :: rest) as Hin by left. rewrite <-E in Hin.
  apply list_elem_of_filter in Hin as [Hparent Hin].
  apply elem_of_map_to_list in Hin. by destruct (Hnone i o Hin).
Qed.


(** X9: a dataset made by [create_dataset] in an experiment is read back
    by [get_dataset] as the very container [create_dataset] returned: the
    new identifier, the name that was asked for and no data (no image of
    the server refers to an identifier that was not handed out yet); on the
    server it belongs to the project of the experiment. *)
Theorem created_dataset_reads_back (experiment : Experiment)
    (dataset_name : string) (pid : Z) (w : world) :
  exp_md_uri experiment = PInt pid →
  (∀ i o, images (server w) !! i = Some o →
     o_parent o ≠ Some (next_id (server w))) →
  ∃ w1 w2,
    create_dataset experiment dataset_name w
    = (Ok {| ds_md_uri := PInt (next_id (server w));
             ds_uuid := PInt (next_id (server w));
             ds_name := dataset_name; ds_uris := [] |}, w1)
    ∧ datasets (server w1) !! next_id (server w)
      = Some (mkObject dataset_name (session_user (server w))
                (clock (server w)) (Some pid) [])
    ∧ get_dataset (PInt (next_id (server w))) w1
      = (Ok {| ds_md_uri := PInt (next_id (server w));
               ds_uuid := PInt (next_id (server w));
               ds_name := dataset_name; ds_uris := [] |}, w2).
Proof.
  intros Hpid Hfresh. unfold create_dataset, save_project_link.
  rewrite Hpid. unfold_M. simpl. eexists _, _. split; [reflexivity|].
  simpl. rewrite lookup_alter_eq, lookup_insert_eq. split; [done|].
  unfold get_dataset, getObject, listChildren. unfold_M. simpl.
  rewrite lookup_alter_eq, lookup_insert_eq. simpl.
  by rewrite (children_of_none _ _ Hfresh).
Qed.

Lemma created_dataset_reads_back_witness :
  ∃ w1 w2,
    create_dataset sample_experiment "process" stained_world
    = (Ok {| ds_md_uri := PInt (next_id (server stained_world));
             ds_uuid := PInt (next_id (server stained_world));
             ds_name := "process"; ds_uris := [] |}, w1)
    ∧ datasets (server w1) !! next_id (server stained_world)
      = Some (mkObject "process" (session_user (server stained_world))
                (clock (server stained_world)) (Some 1) [])
    ∧ get_dataset (PInt (next_id (server stained_world))) w1
      = (Ok {| ds_md_uri := PInt (next_id (server stained_world));
               ds_uuid := PInt (next_id (server stained_world));
               ds_name := "process"; ds_uris := [] |}, w2).
Proof.
  apply (created_dataset_reads_back sample_experiment "process" 1
           stained_world).
  - reflexivity.
  - intros i o Hi. simpl in Hi.
    apply lookup_singleton_Some in Hi as [_ <-]. discriminate.
Defined.

(** ** Imported data read back *)










(** ** The tags of an experiment *)











Example retagged_project :
  (o_annotations <$>
     projects (server (snd (update_experiment retagged_experiment
                              stained_world))) !! 1)
  = Some [(10, TagAnnotation "stain"); (13, TagAnnotation "condition")].
Proof. by vm_compute. Qed.

(** ** New processed data *)

Lemma _create_image_data_Ok
    (imread : gmap string file_content → pyval → result unit)
    (source_file_uri : pyval) (image_name : string)
    (parent_dataset : option Z) (image_id : Z) (w w' : world) :
  _create_image_data imread source_file_uri image_name parent_dataset w
  = (Ok image_id, w') →
  imread (files w) source_file_uri = Ok tt
  ∧ image_id = next_id (server w)
  ∧ files w' = files w
  ∧ images (server w')
    = <[image_id := mkObject image_name (session_user (server w))
                      (clock (server w)) parent_dataset []]>
        (images (server w)).
Proof.
  unfold _create_image_data. unfold_M.
  destruct (imread (files w) source_file_uri) as [[]|e]; [|done].
  by intros [= <- <-].
Qed.

(** X13: [create_data] for a format other than imagetiff raises an
    AttributeError (the code reads an attribute the service does not have)
    and creates nothing: the workspace and the objects of the server are as
    they were. *)
Theorem create_data_other_format
    (workspace : string)
    (imread : gmap string file_content → pyval → result unit)
    (dataset : Dataset) (run : Run) (processed_data : ProcessedData)
    (w : world) :
  pd_format processed_data ≠ "imagetiff" →
  ∃ w',
    create_data workspace imread dataset run processed_data w
    = (Raise AttributeError, w')
    ∧ files w' = files w
    ∧ projects (server w') = projects (server w)
    ∧ datasets (server w') = datasets (server w)
    ∧ images (server w') = images (server w)
    ∧ next_id (server w') = next_id (server w).
Proof.
  intros Hformat%String.eqb_neq. unfold create_data.
  rewrite M_bind_unfold, getObject_eq, Hformat. by eexists.
Qed.

Lemma create_data_other_format_witness :
  ∃ w',
    create_data "/workspace" (λ _ _, Ok tt) process_dataset created_run
      (mkProcessedData (PStr "") (PStr "") (PStr "/workspace/table.csv")
         "table" "alice" "tablecsv" "2021-01-01" None []
         {[ "name" := PStr "o"; "label" := PStr "Table" ]})
      runs_world
    = (Raise AttributeError, w')
    ∧ files w' = files runs_world
    ∧ projects (server w') = projects (server runs_world)
    ∧ datasets (server w') = datasets (server runs_world)
    ∧ images (server w') = images (server runs_world)
    ∧ next_id (server w') = next_id (server runs_world).
Proof.
  apply (create_data_other_format "/workspace" (λ _ _, Ok tt)).
  discriminate.
Defined.

(** X14: processed data made by [create_data] is read back by
    [get_processed_data] under the identifier [create_data] returned: with
    the run it was made by, its inputs in their order, the name and the
    label of its output and its name, owned by the user of the session. *)
Theorem created_data_reads_back
    (workspace : string) (format_date : Z → string)
    (imread : gmap string file_content → pyval → result unit)
    (dataset : Dataset) (run : Run) (processed_data created : ProcessedData)
    (w w1 : world) :
  create_data workspace imread dataset run processed_data w
  = (Ok created, w1) →
  ∃ name label w2,
    pd_md_uri created = PInt (next_id (server w))
    ∧ pd_output processed_data !! "name" = Some name
    ∧ pd_output processed_data !! "label" = Some label
    ∧ get_processed_data workspace format_date (pd_md_uri created) w1
      = (Ok (Some {| pd_md_uri := PInt (next_id (server w));
                     pd_uuid := PInt (next_id (server w));
                     pd_uri := PInt (next_id (server w));
                     pd_name := pd_name processed_data;
                     pd_author := session_user (server w);
                     pd_format := "imagetiff";
                     pd_date := format_date (clock (server w));
                     pd_run :=
                       Some (mkContainer (run_md_uri run) (run_uuid run));
                     pd_inputs := pd_inputs processed_data;
                     pd_output := <["label" := label]> (<["name" := name]> ∅) |}),
         w2).
Proof.
  unfold create_data. intros H.
  apply M_bind_Ok in H as (omero_dataset & w0 & Hget & H).
  rewrite getObject_eq in Hget. injection Hget as <- <-.
  apply M_bind_Ok in H as (image_id & wa & Himage & H).
  destruct (String.eqb (pd_format processed_data) "imagetiff"); [|done].
  apply _create_image_data_Ok in Himage as (_ & -> & _ & Himages).
  apply M_bind_Ok in H as ([] & wb & Hupdate & H).
  unfold mret, M_ret in H. injection H as <- <-.
  destruct (update_then_get workspace format_date _ _ _ Hupdate)
    as (iid & img & r & name & label & w2 & Hid & Himg & Hrun & Hname & Hlabel
        & Hread).
  cbn [pd_md_uri pd_run pd_output pd_inputs pd_name] in *.
  injection Hid as <-. injection Hrun as <-.
  rewrite Himages in Himg. cbn [server next_id journal] in Himg.
  rewrite lookup_insert_eq in Himg. injection Himg as <-.
  exists name, label, w2. by repeat split.
Qed.

Lemma created_data_reads_back_witness :
  ∃ name label w2,
    PInt 13 = PInt (next_id (server import_world))
    ∧ pd_output segmented_data !! "name" = Some name
    ∧ pd_output segmented_data !! "label" = Some label
    ∧ get_processed_data "/workspace" (λ _, "1970-01-02") (PInt 13)
        (snd (create_data "/workspace" reads_files
                {| ds_md_uri := PInt 2; ds_uuid := PInt 2; ds_name := "data";
                   ds_uris := [] |}
                created_run segmented_data import_world))
      = (Ok (Some {| pd_md_uri := PInt (next_id (server import_world));
                     pd_uuid := PInt (next_id (server import_world));
                     pd_uri := PInt (next_id (server import_world));
                     pd_name := "nuclei.tif";
                     pd_author := "alice";
                     pd_format := "imagetiff";
                     pd_date := "1970-01-02";
                     pd_run := Some (mkContainer (PInt 43) (PInt 43));
                     pd_inputs := pd_inputs segmented_data;
                     pd_output := <["label" := label]> (<["name" := name]> ∅) |}),
         w2).
Proof.
  apply (created_data_reads_back "/workspace" (λ _, "1970-01-02") reads_files
           {| ds_md_uri := PInt 2; ds_uuid := PInt 2; ds_name := "data";
              ds_uris := [] |}
           created_run segmented_data
           {| pd_md_uri := PInt 13; pd_uuid := PInt 13; pd_uri := PInt 13;
              pd_name := "nuclei.tif"; pd_author := ""; pd_format := "imagetiff";
              pd_date := "";
              pd_run := Some (mkContainer (PInt 43) (PInt 43));
              pd_inputs := pd_inputs segmented_data;
              pd_output := pd_output segmented_data |}
           import_world).
  vm_compute. reflexivity.
Defined.

(** ** Upload in blocks *)

Lemma block_size_pos : (0 < block_size)%nat.
Proof. unfold block_size. lia. Qed.

Opaque block_size.

Lemma take_block_nil (rest : list Byte.byte) :
  take block_size rest = [] → rest = [].
Proof.
  pose proof block_size_pos. destruct block_size; [lia|]. by destruct rest.
Qed.

Lemma write_blocks_spec (fuel i : nat) (offset : Z) (rest : list Byte.byte) :
  (length rest < fuel)%nat →
  ∃ blocks,
    write_blocks fuel i offset rest = writes_from i offset blocks
    ∧ concat blocks = rest
    ∧ Forall (λ block, block ≠ [] ∧ (length block ≤ block_size)%nat) blocks.
Proof.
  revert offset rest. induction fuel as [|fuel IH]; intros offset rest Hfuel;
    [lia|].
  cbn [write_blocks].
  destruct (take block_size rest) as [|b block] eqn:Hblock.
  - apply take_block_nil in Hblock as ->. by exists [].
  - destruct (IH (offset + Z.of_nat (length (b :: block)))
                (drop block_size rest))
      as (blocks & Hwrites & Hconcat & Hblocks).
    { rewrite length_drop. pose proof block_size_pos.
      destruct rest as [|b' rest]; [by rewrite take_nil in Hblock|].
      cbn [length] in *. lia. }
    exists ((b :: block) :: blocks). split_and!.
    + cbn [writes_from]. by rewrite Hwrites.
    + cbn [concat]. by rewrite Hconcat, <- Hblock, take_drop.
    + constructor; [|done]. split; [done|].
      rewrite <- Hblock, length_take. lia.
Qed.


Lemma one_at_a_time_writes (i : nat) (offset : Z)
    (blocks : list (list Byte.byte)) (calls : list upload_call) :
  one_at_a_time (Some i) (writes_from i offset blocks ++ calls)
  = one_at_a_time (Some i) calls.
Proof.
  revert offset. induction blocks as [|block blocks IH]; intros offset;
    [done|].
  cbn [writes_from app one_at_a_time]. by rewrite Nat.eqb_refl, IH.
Qed.

Lemma one_at_a_time_content (i : nat) (content : list Byte.byte)
    (calls : list upload_call) :
  one_at_a_time None
    (GetUploader i :: upload_content i content ++ RfsClose i :: calls)
  = one_at_a_time None calls.
Proof.
  destruct (write_blocks_spec (S (length content)) i 0 content)
    as (blocks & Hwrites & _); [lia|].
  unfold upload_content. rewrite Hwrites.
  cbn [one_at_a_time app]. rewrite Nat.eqb_refl, one_at_a_time_writes.
  cbn [one_at_a_time andb]. by rewrite Nat.eqb_refl.
Qed.

Lemma opened_content (i : nat) (content : list Byte.byte) :
  opened (upload_content i content) = []
  ∧ closed (upload_content i content) = [].
Proof.
  destruct (write_blocks_spec (S (length content)) i 0 content)
    as (blocks & Hwrites & _); [lia|].
  unfold upload_content. rewrite Hwrites. unfold opened, closed.
  cbn [omap list_omap]. generalize 0. clear Hwrites.
  induction blocks as [|block blocks IH]; intros offset; [done|].
  cbn [writes_from omap list_omap]. apply IH.
Qed.

(** X16: whether [upload_files] returns or raises, it used one uploader at
    a time: each uploader it obtained was closed before the next one was
    obtained and before the function was left, and every write went to the
    uploader that was open. *)
Theorem uploaders_closed_on_every_path (sha1 : list Byte.byte → string)
    (local : gmap string (list Byte.byte)) (files : list string) :
  one_at_a_time None (snd (upload_files sha1 local files)) = true.
Proof.
  unfold upload_files. generalize 0%nat.
  induction files as [|fobj files IH]; intros i; [done|].
  cbn [upload_from]. destruct (local !! fobj) as [content|].
  - specialize (IH (S i)).
    destruct (upload_from sha1 local (S i) files) as [ret_val calls].
    cbn [snd] in *. by rewrite one_at_a_time_content.
  - cbn [snd one_at_a_time]. by rewrite Nat.eqb_refl.
Qed.

Lemma upload_from_missing (sha1 : list Byte.byte → string)
    (local : gmap string (list Byte.byte)) (i : nat)
    (present : list string) (missing : string) (later : list string) :
  Forall (λ fobj, is_Some (local !! fobj)) present →
  local !! missing = None →
  fst (upload_from sha1 local i (present ++ missing :: later)) = Raise OSError
  ∧ opened (snd (upload_from sha1 local i (present ++ missing :: later)))
    = seq i (S (length present))
  ∧ closed (snd (upload_from sha1 local i (present ++ missing :: later)))
    = seq i (S (length present)).
Proof.
  intros Hpresent Hmissing. revert i.
  induction Hpresent as [|fobj present [content Hcontent] _ IH]; intros i.
  - cbn [app upload_from]. by rewrite Hmissing.
  - cbn [app upload_from]. rewrite Hcontent.
    destruct (IH (S i)) as (Hret & Hopened & Hclosed).
    destruct (upload_from sha1 local (S i) (present ++ missing :: later))
      as [ret_val calls].
    cbn [fst snd] in *. subst ret_val. split; [done|].
    destruct (opened_content i content) as [Ho Hc].
    unfold opened, closed in *.
    cbn [omap list_omap length seq]. rewrite !omap_app, Ho, Hc.
    cbn [omap list_omap app]. by rewrite Hopened, Hclosed.
Qed.

(** X17: the first file that cannot be opened ends [upload_files] with an
    OSError: the hashes of the files before it are lost, its uploader and
    theirs have been obtained and closed, and no uploader is obtained for
    the files after it. *)
Theorem upload_stops_at_missing_file (sha1 : list Byte.byte → string)
    (local : gmap string (list Byte.byte))
    (present : list string) (missing : string) (later : list string) :
  Forall (λ fobj, is_Some (local !! fobj)) present →
  local !! missing = None →
  fst (upload_files sha1 local (present ++ missing :: later)) = Raise OSError
  ∧ opened (snd (upload_files sha1 local (present ++ missing :: later)))
    = seq 0 (S (length present))
  ∧ closed (snd (upload_files sha1 local (present ++ missing :: later)))
    = seq 0 (S (length present)).
Proof. apply upload_from_missing. Qed.

Lemma upload_stops_at_missing_file_witness :
  fst (upload_files (λ _, "da39") local_bytes
         (["/data/a.tif"] ++ "/data/b.tif" :: ["/data/c.tif"]))
  = Raise OSError
  ∧ opened (snd (upload_files (λ _, "da39") local_bytes
                   (["/data/a.tif"] ++ "/data/b.tif" :: ["/data/c.tif"])))
    = seq 0 (S (length ["/data/a.tif"]))
  ∧ closed (snd (upload_files (λ _, "da39") local_bytes
                   (["/data/a.tif"] ++ "/data/b.tif" :: ["/data/c.tif"])))
    = seq 0 (S (length ["/data/a.tif"])).
Proof.
  apply (upload_stops_at_missing_file (λ _, "da39") local_bytes
           ["/data/a.tif"] "/data/b.tif" ["/data/c.tif"]).
  - repeat constructor. vm_compute. eauto.
  - reflexivity.
Defined.

Lemma upload_from_present (sha1 : list Byte.byte → string)
    (local : gmap string (list Byte.byte)) (i : nat) (files : list string)
    (contents : list (list Byte.byte)) :
  Forall2 (λ fobj content, local !! fobj = Some content) files contents →
  fst (upload_from sha1 local i files) = Ok (map sha1 contents)
  ∧ opened (snd (upload_from sha1 local i files)) = seq i (length files)
  ∧ closed (snd (upload_from sha1 local i files)) = seq i (length files).
Proof.
  intros Hfiles. revert i.
  induction Hfiles as [|fobj content files contents Hcontent _ IH]; intros i;
    [done|].
  cbn [upload_from]. rewrite Hcontent.
  destruct (IH (S i)) as (Hret & Hopened & Hclosed).
  destruct (upload_from sha1 local (S i) files) as [ret_val calls].
  cbn [fst snd] in *. subst ret_val. split; [done|].
  destruct (opened_content i content) as [Ho Hc]. unfold opened, closed in *.
  cbn [omap list_omap length seq]. rewrite !omap_app, Ho, Hc.
  cbn [omap list_omap app]. by rewrite Hopened, Hclosed.
Qed.

(** X18: when every file can be opened, [upload_files] returns the hashes
    of the files in the order of the files, having obtained and closed one
    uploader for each, numbered from 0 by the place of the file. *)
Theorem upload_returns_hashes_in_order (sha1 : list Byte.byte → string)
    (local : gmap string (list Byte.byte)) (files : list string)
    (contents : list (list Byte.byte)) :
  Forall2 (λ fobj content, local !! fobj = Some content) files contents →
  fst (upload_files sha1 local files) = Ok (map sha1 contents)
  ∧ opened (snd (upload_files sha1 local files)) = seq 0 (length files)
  ∧ closed (snd (upload_files sha1 local files)) = seq 0 (length files).
Proof. apply upload_from_present. Qed.

Lemma upload_returns_hashes_in_order_witness :
  fst (upload_files (λ content, pretty (length content)) local_bytes
         ["/data/c.tif"; "/data/a.tif"])
  = Ok (map (λ content, pretty (length content))
          [[Byte.x4d; Byte.x4d]; [Byte.x49; Byte.x49; Byte.x2a; Byte.x00]])
  ∧ opened (snd (upload_files (λ content, pretty (length content))
                   local_bytes ["/data/c.tif"; "/data/a.tif"]))
    = seq 0 (length ["/data/c.tif"; "/data/a.tif"])
  ∧ closed (snd (upload_files (λ content, pretty (length content))
                   local_bytes ["/data/c.tif"; "/data/a.tif"]))
    = seq 0 (length ["/data/c.tif"; "/data/a.tif"]).
Proof.
  apply (upload_returns_hashes_in_order (λ content, pretty (length content))
           local_bytes ["/data/c.tif"; "/data/a.tif"]
           [[Byte.x4d; Byte.x4d]; [Byte.x49; Byte.x49; Byte.x2a; Byte.x00]]).
  repeat constructor.
Defined.

(** The calls that upload the four bytes of a file. *)
Example upload_of_four_bytes :
  snd (upload_files (λ _, "da39") local_bytes ["/data/a.tif"])
  = [GetUploader 0; RfsWrite 0 [] 0 0;
     RfsWrite 0 [Byte.x49; Byte.x49; Byte.x2a; Byte.x00] 0 4; RfsClose 0].
Proof. vm_compute. reflexivity. Qed.

(** ** Run documents with more than a run needs *)

Lemma dict_get_insert_other (k k' : string) (v : pyval)
    (d1 d2 : list (string * pyval)) :
  k ≠ k' →
  dict_get k (d1 ++ (k', v) :: d2) = dict_get k (d1 ++ d2).
Proof.
  intros Hk. induction d1 as [|[k1 v1] d1 IH].
  - cbn [app dict_get]. by apply String.eqb_neq in Hk as ->.
  - cbn [app dict_get]. by rewrite IH.
Qed.

Lemma py_getitem_insert_other (k k' : string) (v : pyval)
    (d1 d2 : list (string * pyval)) :
  k ≠ k' →
  py_getitem (PDict (d1 ++ (k', v) :: d2)) k = py_getitem (PDict (d1 ++ d2)) k.
Proof. intros Hk. unfold py_getitem. by rewrite dict_get_insert_other. Qed.

(** X19: a key that [_parse_run] does not read changes nothing: a run
    document with one more key, wherever it stands among the others, is
    parsed to the same run, or fails with the same exception, as the
    document without it. *)
Theorem parse_run_ignores_other_keys (files : gmap string file_content)
    (md_uri key : string) (value : pyval) (d1 d2 : list (string * pyval)) :
  key ∉ ["uuid"; "process"; "processed_dataset"; "inputs"; "parameters"] →
  _parse_run (<[md_uri := JsonFile (PDict (d1 ++ (key, value) :: d2))]> files)
    md_uri
  = _parse_run (<[md_uri := JsonFile (PDict (d1 ++ d2))]> files) md_uri.
Proof.
  intros Hkey. unfold _parse_run, _read_json. rewrite !lookup_insert_eq.
  unfold_result. unfold run_of_metadata.
  rewrite !(py_getitem_insert_other "uuid"),
    !(py_getitem_insert_other "process"),
    !(py_getitem_insert_other "processed_dataset"),
    !(py_getitem_insert_other "inputs"),
    !(py_getitem_insert_other "parameters"); try done.
  all: intros <-; apply Hkey; set_solver.
Qed.

Lemma parse_run_ignores_other_keys_witness :
  _parse_run
    (<["/workspace/run.md.json" :=
         JsonFile (PDict ([("uuid", PStr "")]
                          ++ ("comment", PStr "second attempt")
                          :: [("process", PDict [("name", PStr "blur");
                                                 ("url", PStr "blur.xml")])]))]> ∅)
    "/workspace/run.md.json"
  = _parse_run
      (<["/workspace/run.md.json" :=
           JsonFile (PDict ([("uuid", PStr "")]
                            ++ [("process", PDict [("name", PStr "blur");
                                                   ("url", PStr "blur.xml")])]))]> ∅)
      "/workspace/run.md.json".
Proof.
  apply (parse_run_ignores_other_keys ∅ "/workspace/run.md.json" "comment"
           (PStr "second attempt")).
  compute_done.
Defined.

(** ** Attachments that are no run document *)

Lemma download_run_unreadable (workspace : string) (aid : Z) (name : string)
    (content : file_content) (w : world) :
  ends_with "md.json" name = true →
  (∀ doc, content ≠ JsonFile doc) →
  ∃ e w', download_run workspace (aid, FileAnnotation name content) w
          = (Raise e, w').
Proof.
  intros Hname Hcontent. unfold download_run. cbn [snd]. rewrite Hname.
  unfold_M. simpl. unfold _parse_run, _read_json. rewrite lookup_insert_eq.
  destruct content as [|doc|]; [by eexists _, _|by destruct (Hcontent doc)|
                                by eexists _, _].
Qed.

Lemma download_runs_unreadable (workspace : string)
    (anns : list (Z * annotation)) (aid : Z) (name : string)
    (content : file_content) (w : world) :
  (aid, FileAnnotation name content) ∈ anns →
  ends_with "md.json" name = true →
  (∀ doc, content ≠ JsonFile doc) →
  ∃ e w', download_runs workspace anns w = (Raise e, w').
Proof.
  intros Hann Hname Hcontent. revert w.
  induction anns as [|ann anns IH]; intros w; [by apply elem_of_nil in Hann|].
  cbn [download_runs]. rewrite M_bind_unfold.
  apply elem_of_cons in Hann as [<-|Hann].
  - destruct (download_run_unreadable workspace aid name content w)
      as (e & w' & ->); [done..|].
    by eexists _, _.
  - destruct (download_run workspace ann w) as [[run|e] w1];
      [|by eexists _, _].
    rewrite M_bind_unfold.
    destruct (IH Hann w1) as (e & w' & ->). by eexists _, _.
Qed.

(** X20: [get_dataset_runs] reads every file attached to the dataset whose
    name ends in md.json as a run document and skips none: when one of
    them is empty or holds no JSON, the call raises and returns no run at
    all, whatever the other attachments are. *)
Theorem unreadable_attachment_fails_listing (workspace : string)
    (dataset : Dataset) (did : Z) (ds : omero_object) (aid : Z)
    (name : string) (content : file_content) (w : world) :
  ds_md_uri dataset = PInt did →
  datasets (server w) !! did = Some ds →
  (aid, FileAnnotation name content) ∈ o_annotations ds →
  ends_with "md.json" name = true →
  (∀ doc, content ≠ JsonFile doc) →
  ∃ e w', get_dataset_runs workspace dataset w = (Raise e, w').
Proof.
  intros Hid Hds Hann Hname Hcontent.
  rewrite (get_dataset_runs_eq _ _ _ _ _ Hid Hds).
  by eapply download_runs_unreadable.
Qed.

Lemma unreadable_attachment_fails_listing_witness :
  ∃ e w', get_dataset_runs "/workspace" process_dataset runs_world
          = (Raise e, w').
Proof.
  apply (unreadable_attachment_fails_listing "/workspace" process_dataset 2
           (mkObject "process" "alice" 0 (Some 1)
              [(40, FileAnnotation "run.md.json" EmptyFile);
               (41, TagAnnotation "run_2.md.json");
               (42, FileAnnotation "run_1.md.json" EmptyFile)])
           42 "run_1.md.json" EmptyFile runs_world).
  - reflexivity.
  - reflexivity.
  - do 2 constructor. constructor.
  - reflexivity.
  - discriminate.
Defined.

(** The exception an empty run document ends in: [_read_json] returns
    None for it, which has no item uuid. *)
Example empty_run_document :
  fst (get_dataset_runs "/workspace" process_dataset runs_world)
  = Raise TypeError.
Proof. vm_compute. reflexivity. Qed.
